(** * SendZen WhatsApp message SDK: validation and message formatting

    A shallow embedding of
      - [src/types/index.ts]                (validatePhoneNumber,
                                             validateInteractiveButtons),
      - [src/services/template-service.ts]  (validateLanguageCode, the
                                             component constructors, the
                                             component validation),
      - [src/services/whatsapp-service.ts]  (sendMessage and its typed
                                             front ends),
    together with the properties of these functions that the
    specification states.

    JavaScript strings are modelled as [string], numbers used as button
    indices as [Z], optional fields as [option], a [Set] as a [gset], an
    object built property by property as an association list that keeps
    the insertion order, a thrown [Error] as [Thrown msg], and the
    transport as a log of the requests issued so far. *)

From Stdlib Require Import ZArith Ascii String.
From stdpp Require Import base decidable option list gmap sets strings.

Local Open Scope string_scope.
Local Open Scope Z_scope.
Local Open Scope nat_scope.

(** ** Regular expressions

    The two syntactic validators are regular-expression tests. The
    fragment below covers what the two patterns use: a character class
    given by a range, a literal character, concatenation, and bounded
    repetition [r{n}] and [r{0,n}] (written with choice). Both patterns
    are anchored with [^] and [$], so [test] asks for a match of the
    whole input. *)

Module RegExp.

Inductive regex : Type :=
| Eps                          (* the empty word *)
| Range (lo hi : ascii)        (* [lo-hi] *)
| Lit (c : ascii)              (* a literal character *)
| Cat (r s : regex)            (* r s *)
| Alt (r s : regex).           (* r | s *)

(** [r{n}] *)
Fixpoint rep (n : nat) (r : regex) : regex :=
  match n with
  | O => Eps
  | S k => Cat r (rep k r)
  end.

(** [r{0,n}], greedy: the longer alternative is tried first. *)
Fixpoint upto (n : nat) (r : regex) : regex :=
  match n with
  | O => Eps
  | S k => Alt (Cat r (upto k r)) Eps
  end.

Definition in_range (lo hi c : ascii) : bool :=
  (nat_of_ascii lo <=? nat_of_ascii c) && (nat_of_ascii c <=? nat_of_ascii hi).

(** A backtracking matcher: [run r w] lists what is left of [w] after
    each way of matching [r] against a prefix of [w]. *)
Fixpoint run (r : regex) (w : list ascii) : list (list ascii) :=
  match r with
  | Eps => [w]
  | Range lo hi =>
      match w with
      | c :: w' => if in_range lo hi c then [w'] else []
      | [] => []
      end
  | Lit a =>
      match w with
      | c :: w' => if Ascii.eqb a c then [w'] else []
      | [] => []
      end
  | Cat r1 r2 => run r1 w ≫= run r2
  | Alt r1 r2 => run r1 w ++ run r2 w
  end.

Definition is_nil (w : list ascii) : bool :=
  match w with [] => true | _ :: _ => false end.

(** [/^r$/.test(s)] *)
Definition test (r : regex) (s : string) : bool :=
  existsb is_nil (run r (list_ascii_of_string s)).

(** The words of a regular expression. *)
Inductive lang : regex -> list ascii -> Prop :=
| lang_eps : lang Eps []
| lang_range lo hi c : in_range lo hi c = true -> lang (Range lo hi) [c]
| lang_lit c : lang (Lit c) [c]
| lang_cat r s u v : lang r u -> lang s v -> lang (Cat r s) (u ++ v)
| lang_alt_l r s u : lang r u -> lang (Alt r s) u
| lang_alt_r r s u : lang s u -> lang (Alt r s) u.

End RegExp.

(** ** JavaScript values and control

    [formattedMessage] in [sendMessage] is an untyped object that is
    filled in property by property; the wire body is its JSON form, in
    which the property names and their order are those of the object. *)

#[warnings="-register-all"] Inductive JsValue : Type :=
| JsUndefined
| JsBoolean (b : bool)
| JsNumber (n : Z)
| JsString (s : string)
| JsArray (items : list JsValue)
| JsObject (props : list (string * JsValue)).

(** An optional string property read into an object literal. *)
Definition of_optional (s : option string) : JsValue :=
  match s with
  | Some v => JsString v
  | None => JsUndefined
  end.

(** [if (s)] for [s : string | undefined]: the empty string is falsy. *)
Definition truthy (s : option string) : bool :=
  match s with
  | Some v => negb (String.eqb v "")
  | None => false
  end.

(** [b || false] for [b : boolean | undefined]. *)
Definition or_false (b : option bool) : bool :=
  match b with
  | Some true => true
  | _ => false
  end.

(** [o.k = v]: overwrite in place, or append a new property. *)
Fixpoint set_prop (k : string) (v : JsValue) (o : list (string * JsValue))
  : list (string * JsValue) :=
  match o with
  | [] => [(k, v)]
  | (k', v') :: o' =>
      if String.eqb k k' then (k, v) :: o' else (k', v') :: set_prop k v o'
  end.

(** [o.k], [None] when [o] has no property [k]. *)
Fixpoint get_prop (k : string) (o : list (string * JsValue)) : option JsValue :=
  match o with
  | [] => None
  | (k', v') :: o' => if String.eqb k k' then Some v' else get_prop k o'
  end.

(** A call either returns or throws [new Error(msg)]. *)
Inductive outcome (A : Type) : Type :=
| Returned (a : A)
| Thrown (msg : string).
Arguments Returned {A} a.
Arguments Thrown {A} msg.

#[global] Instance outcome_ret : MRet outcome := fun A a => Returned a.
#[global] Instance outcome_bind : MBind outcome := fun A B f m =>
  match m with
  | Returned a => f a
  | Thrown msg => Thrown msg
  end.

(** [new Set(xs).size] *)
Definition Set_size `{Countable A} (xs : list A) : nat :=
  size (list_to_set xs : gset A).

(** ** [src/types/index.ts] *)

Record RequestOptions : Type := {
  opt_timeout : option Z;
  opt_headers : option (list (string * string));
  opt_retry : option (Z * Z)
}.

Record SendZenConfig : Type := {
  apiKey : string;
  config_from : string;
  config_timeout : option Z
}.

(** [/^[1-9][0-9]{0,3}[1-9][0-9]{9}$/] *)
Definition phonePattern : RegExp.regex :=
  RegExp.Cat (RegExp.Range "1" "9")
    (RegExp.Cat (RegExp.upto 3 (RegExp.Range "0" "9"))
       (RegExp.Cat (RegExp.Range "1" "9")
          (RegExp.rep 9 (RegExp.Range "0" "9")))).

Definition validatePhoneNumber (phone : string) : bool :=
  RegExp.test phonePattern phone && (String.length phone <=? 15).

Record Button : Type := { id : string; title : string }.

Definition validateInteractiveButtons (buttons : list Button) : outcome unit :=
  if decide (length buttons = 0) then
    Thrown "Interactive message must have at least one button"
  else if decide (3 < length buttons) then
    Thrown "Interactive message can have maximum 3 buttons"
  else
    let ids := id <$> buttons in
    if decide (Set_size ids ≠ length ids) then
      Thrown "Interactive message buttons must have unique IDs"
    else
      let titles := title <$> buttons in
      if decide (Set_size titles ≠ length titles) then
        Thrown "Interactive message buttons must have unique titles"
      else Returned ().

(** The message variants. The link and the id of a media message are
    two optional properties of the object that arrives at run time. *)
Module Message.

Record TextBody : Type := { body : string; preview_url : option bool }.

Record ImageBody : Type := {
  image_link : option string;
  image_id : option string;
  image_caption : option string
}.

Record DocumentBody : Type := {
  document_link : option string;
  document_id : option string;
  document_filename : string;
  document_caption : option string
}.

Record VideoBody : Type := {
  video_link : option string;
  video_id : option string;
  video_caption : string
}.

Record AudioBody : Type := {
  audio_link : option string;
  audio_id : option string
}.

(** [WhatsAppMessage]: the tag is [message.type], the argument is the
    property named after the tag. An interactive body is passed on as it
    is, so it is kept as the object it is. *)
Inductive Content : Type :=
| text (t : TextBody)
| image (i : ImageBody)
| document (d : DocumentBody)
| video (v : VideoBody)
| audio (a : AudioBody)
| interactive (i : JsValue).

Record WhatsAppMessage : Type := {
  from : string;
  to : string;
  content : Content
}.

(** [message.type] *)
Definition type (message : WhatsAppMessage) : string :=
  match content message with
  | text _ => "text"
  | image _ => "image"
  | document _ => "document"
  | video _ => "video"
  | audio _ => "audio"
  | interactive _ => "interactive"
  end.

End Message.

(** ** [src/services/template-service.ts]: data *)

(** [/^[a-z]{2}_[A-Z]{2}$/] *)
Definition langCodePattern : RegExp.regex :=
  RegExp.Cat (RegExp.rep 2 (RegExp.Range "a" "z"))
    (RegExp.Cat (RegExp.Lit "_") (RegExp.rep 2 (RegExp.Range "A" "Z"))).

Definition validateLanguageCode (langCode : string) : bool :=
  RegExp.test langCodePattern langCode.

Inductive TemplateComponentType : Type := header | body | footer | button.

Inductive TemplateParameterType : Type := text | image | video | document.

Inductive ButtonSubType : Type := quick_reply | phone_number | url | copy_code.

#[global] Instance TemplateComponentType_eq_dec : EqDecision TemplateComponentType.
Proof. solve_decision. Defined.

#[global] Instance ButtonSubType_eq_dec : EqDecision ButtonSubType.
Proof. solve_decision. Defined.

(** The string a component type is at run time. *)
Definition component_type_name (t : TemplateComponentType) : string :=
  match t with
  | header => "header"
  | body => "body"
  | footer => "footer"
  | button => "button"
  end.

Record MediaRef : Type := { link : option string; media_id : option string }.

Record TemplateParameter : Type := {
  param_type : TemplateParameterType;
  param_text : option string;
  param_image : option MediaRef;
  param_video : option MediaRef;
  param_document : option MediaRef
}.

Record TemplateComponent : Type := {
  component_type : TemplateComponentType;
  parameters : option (list TemplateParameter);
  sub_type : option ButtonSubType;
  index : option Z
}.

Record TemplateMessage : Type := {
  template_from : string;
  template_to : string;
  template_name : string;
  lang_code : string;
  template_components : option (list TemplateComponent)
}.

Record TemplateMessagePayload : Type := {
  payload_to : string;
  templateName : string;
  langCode : string;
  components : option (list TemplateComponent);
  options : option RequestOptions
}.

(** ** [src/services/template-service.ts]: component constructors *)

Definition text_parameter (s : string) : TemplateParameter :=
  {| param_type := text; param_text := Some s;
     param_image := None; param_video := None; param_document := None |}.

Definition createHeaderTextComponent (s : string) : TemplateComponent :=
  {| component_type := header; parameters := Some [text_parameter s];
     sub_type := None; index := None |}.

Definition createHeaderImageComponent (imageUrl : string) : TemplateComponent :=
  {| component_type := header;
     parameters := Some [
       {| param_type := image; param_text := None;
          param_image := Some {| link := Some imageUrl; media_id := None |};
          param_video := None; param_document := None |}];
     sub_type := None; index := None |}.

Definition createHeaderImageIdComponent (mediaId : string) : TemplateComponent :=
  {| component_type := header;
     parameters := Some [
       {| param_type := image; param_text := None;
          param_image := Some {| link := None; media_id := Some mediaId |};
          param_video := None; param_document := None |}];
     sub_type := None; index := None |}.

Definition createHeaderVideoComponent (videoUrl : string) : TemplateComponent :=
  {| component_type := header;
     parameters := Some [
       {| param_type := video; param_text := None; param_image := None;
          param_video := Some {| link := Some videoUrl; media_id := None |};
          param_document := None |}];
     sub_type := None; index := None |}.

Definition createHeaderVideoIdComponent (mediaId : string) : TemplateComponent :=
  {| component_type := header;
     parameters := Some [
       {| param_type := video; param_text := None; param_image := None;
          param_video := Some {| link := None; media_id := Some mediaId |};
          param_document := None |}];
     sub_type := None; index := None |}.

Definition createHeaderDocumentComponent (documentUrl : string) : TemplateComponent :=
  {| component_type := header;
     parameters := Some [
       {| param_type := document; param_text := None; param_image := None;
          param_video := None;
          param_document := Some {| link := Some documentUrl; media_id := None |} |}];
     sub_type := None; index := None |}.

Definition createHeaderDocumentIdComponent (mediaId : string) : TemplateComponent :=
  {| component_type := header;
     parameters := Some [
       {| param_type := document; param_text := None; param_image := None;
          param_video := None;
          param_document := Some {| link := None; media_id := Some mediaId |} |}];
     sub_type := None; index := None |}.

Definition createBodyComponent (textParameters : list string) : TemplateComponent :=
  {| component_type := body;
     parameters := Some (text_parameter <$> textParameters);
     sub_type := None; index := None |}.

Definition createFooterComponent (textParameters : list string) : TemplateComponent :=
  {| component_type := footer;
     parameters := Some (text_parameter <$> textParameters);
     sub_type := None; index := None |}.

Definition createQuickReplyButtonComponent (i : Z) (s : string) : TemplateComponent :=
  {| component_type := button; sub_type := Some quick_reply; index := Some i;
     parameters := Some [text_parameter s] |}.

Definition createPhoneNumberButtonComponent (i : Z) (phoneNumber : string)
  : TemplateComponent :=
  {| component_type := button; sub_type := Some phone_number; index := Some i;
     parameters := Some [text_parameter phoneNumber] |}.

Definition createUrlButtonComponent (i : Z) (u : string) : TemplateComponent :=
  {| component_type := button; sub_type := Some url; index := Some i;
     parameters := Some [text_parameter u] |}.

Definition createCopyCodeButtonComponent (i : Z) (code : string) : TemplateComponent :=
  {| component_type := button; sub_type := Some copy_code; index := Some i;
     parameters := Some [text_parameter code] |}.

(** ** [src/services/template-service.ts]: component validation *)

(** [btn.parameters?.[0]?.text] *)
Definition first_text (btn : TemplateComponent) : option string :=
  match parameters btn with
  | Some (p :: _) => param_text p
  | _ => None
  end.

Definition validateButtonComponents (buttonComponents : list TemplateComponent)
  : outcome unit :=
  let quickReplyButtons :=
    filter (λ btn, sub_type btn = Some quick_reply) buttonComponents in
  let phoneNumberButtons :=
    filter (λ btn, sub_type btn = Some phone_number) buttonComponents in
  let urlButtons := filter (λ btn, sub_type btn = Some url) buttonComponents in
  let copyCodeButtons :=
    filter (λ btn, sub_type btn = Some copy_code) buttonComponents in
  if decide (10 < length quickReplyButtons) then
    Thrown "Maximum 10 quick reply buttons allowed"
  else if decide (1 < length phoneNumberButtons) then
    Thrown "Maximum 1 phone number button allowed"
  else if decide (1 < length urlButtons) then
    Thrown "Maximum 1 URL button allowed"
  else if decide (1 < length copyCodeButtons) then
    Thrown "Maximum 1 copy code button allowed"
  else
    let hasQuickReply := bool_decide (0 < length quickReplyButtons) in
    let hasPhoneOrUrl :=
      bool_decide (0 < length phoneNumberButtons)
      || bool_decide (0 < length urlButtons) in
    let hasCopyCode := bool_decide (0 < length copyCodeButtons) in
    if hasQuickReply && (hasPhoneOrUrl || hasCopyCode) then
      Thrown "Quick reply buttons cannot be combined with other button types"
    else if hasCopyCode && hasPhoneOrUrl then
      Thrown "Copy code buttons cannot be combined with phone number or URL buttons"
    else
      let indices := index <$> buttonComponents in
      if decide (Set_size indices ≠ length indices) then
        Thrown "Button indices must be unique"
      else
        let buttonTexts := first_text <$> buttonComponents in
        if decide (Set_size buttonTexts ≠ length buttonTexts) then
          Thrown "Button texts must be unique"
        else Returned ().

(** [!component.parameters || component.parameters.length === 0] *)
Definition lacks_parameters (component : TemplateComponent) : bool :=
  match parameters component with
  | None => true
  | Some ps => bool_decide (length ps = 0)
  end.

(** The [for] loop of [validateTemplateComponents]. *)
Fixpoint requireParameters (components : list TemplateComponent) : outcome unit :=
  match components with
  | [] => Returned ()
  | component :: rest =>
      if bool_decide (component_type component ≠ button)
         && lacks_parameters component
      then Thrown (component_type_name (component_type component)
                   +:+ " component must have parameters")
      else requireParameters rest
  end.

Definition validateTemplateComponents (components : list TemplateComponent)
  : outcome unit :=
  let buttonComponents :=
    filter (λ comp, component_type comp = button) components in
  _ ← (if decide (0 < length buttonComponents)
       then validateButtonComponents buttonComponents
       else Returned ());
  requireParameters components.

(** ** The transport

    [BaseService.post] hands the body to the HTTP client of the SDK. The
    client is outside the code modelled here: it is a parameter, and all
    that is kept of a call is the request it was given. A service call
    runs against the list of the requests issued so far, oldest first,
    and either returns or throws. *)

Inductive HttpMethod : Type := GET | POST | PUT | PATCH | DELETE.

(** The body of a request: the formatted message of [sendMessage], or
    the typed message of [sendTemplateMessage] (whose [type] is the
    constant ['template']). *)
Inductive RequestBody : Type :=
| Formatted (formattedMessage : JsValue)
| Template (message : TemplateMessage).

Record Request : Type := {
  method : HttpMethod;
  endpoint : string;
  data : RequestBody;
  request_options : option RequestOptions
}.

Record MessageResponseItem : Type := {
  message_id : string;
  status : string;
  timestamp : string;
  item_to : string
}.

Record ApiResponse : Type := {
  response_message : string;
  response_data : list MessageResponseItem;
  response_status : Z;
  statusText : string;
  response_headers : list (string * string)
}.

Definition Service (A : Type) : Type :=
  list Request → outcome A * list Request.

#[global] Instance Service_ret : MRet Service := fun A a net => (Returned a, net).
#[global] Instance Service_bind : MBind Service := fun A B f m net =>
  match m net with
  | (Returned a, net') => f a net'
  | (Thrown msg, net') => (Thrown msg, net')
  end.

(** [throw new Error(msg)] *)
Definition throw {A : Type} (msg : string) : Service A :=
  fun net => (Thrown msg, net).

(** A computation that issues no request. *)
Definition pure_call {A : Type} (o : outcome A) : Service A :=
  fun net => (o, net).

Section Services.

(** [this.sdk]: its configuration and its HTTP client. *)
Variable config : SendZenConfig.
Variable httpClient : Request → outcome ApiResponse.

Definition getFromNumber : string := config_from config.

Definition request (m : HttpMethod) (e : string) (d : RequestBody)
  (o : option RequestOptions) : Service ApiResponse :=
  fun net =>
    let r := {| method := m; endpoint := e; data := d; request_options := o |} in
    (httpClient r, (net ++ [r])%list).

Definition post (e : string) (d : RequestBody) (o : option RequestOptions)
  : Service ApiResponse :=
  request POST e d o.

(** *** [TemplateService.sendTemplateMessage] *)

Definition sendTemplateMessage (payloadData : TemplateMessagePayload)
  : Service ApiResponse :=
  if negb (validatePhoneNumber getFromNumber) then
    throw ("Invalid 'from' phone number format: " +:+ getFromNumber)
  else if negb (validatePhoneNumber (payload_to payloadData)) then
    throw ("Invalid 'to' phone number format: " +:+ payload_to payloadData)
  else if negb (validateLanguageCode (langCode payloadData)) then
    throw ("Invalid language code format: " +:+ langCode payloadData
           +:+ ". Expected format: en_US, es_ES, fr_FR, etc.")
  else
    _ ← pure_call (match components payloadData with
                   | Some cs => validateTemplateComponents cs
                   | None => Returned ()
                   end);
    let message :=
      {| template_from := getFromNumber;
         template_to := payload_to payloadData;
         template_name := templateName payloadData;
         lang_code := langCode payloadData;
         template_components := components payloadData |} in
    post "" (Template message) (options payloadData).

(** *** [WhatsAppService.sendMessage]

    [formatMessage] is the part of [sendMessage] between the two phone
    number checks and the call of [post]: it builds [formattedMessage],
    or throws. *)

Definition formatMessage (message : Message.WhatsAppMessage)
  : outcome (list (string * JsValue)) :=
  let formattedMessage :=
    [ ("from", JsString (Message.from message));
      ("To", JsString (Message.to message));
      ("type", JsString (Message.type message)) ] in
  match Message.content message with
  | Message.text t =>
      Returned (set_prop "text"
        (JsObject [ ("body", JsString (Message.body t));
                    ("preview_url", JsBoolean (or_false (Message.preview_url t))) ])
        formattedMessage)
  | Message.image i =>
      let imageData := [ ("caption", of_optional (Message.image_caption i)) ] in
      if truthy (Message.image_link i) then
        Returned (set_prop "image"
          (JsObject (set_prop "link" (of_optional (Message.image_link i)) imageData))
          formattedMessage)
      else if truthy (Message.image_id i) then
        Returned (set_prop "image"
          (JsObject (set_prop "id" (of_optional (Message.image_id i)) imageData))
          formattedMessage)
      else Thrown "Image message must have either link or id"
  | Message.document d =>
      let documentData :=
        [ ("filename", JsString (Message.document_filename d));
          ("caption", of_optional (Message.document_caption d)) ] in
      if truthy (Message.document_link d) then
        Returned (set_prop "document"
          (JsObject (set_prop "link" (of_optional (Message.document_link d)) documentData))
          formattedMessage)
      else if truthy (Message.document_id d) then
        Returned (set_prop "document"
          (JsObject (set_prop "id" (of_optional (Message.document_id d)) documentData))
          formattedMessage)
      else Thrown "Document message must have either link or id"
  | Message.video v =>
      let videoData := [ ("caption", JsString (Message.video_caption v)) ] in
      if truthy (Message.video_link v) then
        Returned (set_prop "video"
          (JsObject (set_prop "link" (of_optional (Message.video_link v)) videoData))
          formattedMessage)
      else if truthy (Message.video_id v) then
        Returned (set_prop "video"
          (JsObject (set_prop "id" (of_optional (Message.video_id v)) videoData))
          formattedMessage)
      else Thrown "Video message must have either link or id"
  | Message.audio a =>
      let audioData := [] in
      if truthy (Message.audio_link a) then
        Returned (set_prop "audio"
          (JsObject (set_prop "link" (of_optional (Message.audio_link a)) audioData))
          formattedMessage)
      else if truthy (Message.audio_id a) then
        Returned (set_prop "audio"
          (JsObject (set_prop "id" (of_optional (Message.audio_id a)) audioData))
          formattedMessage)
      else Thrown "Audio message must have either link or id"
  | Message.interactive i =>
      Returned (set_prop "interactive" i formattedMessage)
  end.

Definition sendMessage (message : Message.WhatsAppMessage)
  (o : option RequestOptions) : Service ApiResponse :=
  if negb (validatePhoneNumber (Message.from message)) then
    throw ("Invalid 'from' phone number format: " +:+ Message.from message)
  else if negb (validatePhoneNumber (Message.to message)) then
    throw ("Invalid 'to' phone number format: " +:+ Message.to message)
  else
    formattedMessage ← pure_call (formatMessage message);
    post "" (Formatted (JsObject formattedMessage)) o.

(** *** The typed front ends *)

Definition sendTextMessage (recipient s : string) (previewUrl : option bool)
  (o : option RequestOptions) : Service ApiResponse :=
  let message :=
    {| Message.from := getFromNumber;
       Message.to := recipient;
       Message.content := Message.text
         {| Message.body := s;
            Message.preview_url := Some (or_false previewUrl) |} |} in
  sendMessage message o.

Definition sendImageMessage (recipient imageUrl : string) (caption : option string)
  (o : option RequestOptions) : Service ApiResponse :=
  let message :=
    {| Message.from := getFromNumber;
       Message.to := recipient;
       Message.content := Message.image
         {| Message.image_link := Some imageUrl;
            Message.image_id := None;
            Message.image_caption := caption |} |} in
  sendMessage message o.

Definition sendImageMessageWithId (recipient mediaId : string)
  (caption : option string) (o : option RequestOptions) : Service ApiResponse :=
  let message :=
    {| Message.from := getFromNumber;
       Message.to := recipient;
       Message.content := Message.image
         {| Message.image_link := None;
            Message.image_id := Some mediaId;
            Message.image_caption := caption |} |} in
  sendMessage message o.

(** [buttons.map(button => ({type: 'reply', reply: {id, title}}))] *)
Definition reply_button (b : Button) : JsValue :=
  JsObject [ ("type", JsString "reply");
             ("reply", JsObject [ ("id", JsString (id b));
                                  ("title", JsString (title b)) ]) ].

Definition sendInteractiveMessage (recipient bodyText : string)
  (buttons : list Button) (headerText footerText : option string)
  (o : option RequestOptions) : Service ApiResponse :=
  _ ← pure_call (validateInteractiveButtons buttons);
  let interactive0 :=
    [ ("type", JsString "button");
      ("body", JsObject [ ("text", JsString bodyText) ]);
      ("action", JsObject [ ("buttons", JsArray (reply_button <$> buttons)) ]) ] in
  let interactive1 :=
    if truthy headerText then
      set_prop "header"
        (JsObject [ ("type", JsString "text"); ("text", of_optional headerText) ])
        interactive0
    else interactive0 in
  let interactive2 :=
    if truthy footerText then
      set_prop "footer" (JsObject [ ("text", of_optional footerText) ]) interactive1
    else interactive1 in
  let message :=
    {| Message.from := getFromNumber;
       Message.to := recipient;
       Message.content := Message.interactive (JsObject interactive2) |} in
  sendMessage message o.

End Services.

(** ** The error classes of the specification

    The code throws plain [Error]s; a class of the specification is
    identified by the message thrown at the corresponding place. *)

Definition InvalidSender (v : string) : string :=
  "Invalid 'from' phone number format: " +:+ v.

Definition InvalidRecipient (v : string) : string :=
  "Invalid 'to' phone number format: " +:+ v.

Definition InvalidLanguageCode (v : string) : string :=
  "Invalid language code format: " +:+ v
  +:+ ". Expected format: en_US, es_ES, fr_FR, etc.".

Inductive MediaKind : Type := Image | Document | Video | Audio.

Definition MissingContentLocator (k : MediaKind) : string :=
  match k with
  | Image => "Image message must have either link or id"
  | Document => "Document message must have either link or id"
  | Video => "Video message must have either link or id"
  | Audio => "Audio message must have either link or id"
  end.

Definition EmptyComponentParameters (t : TemplateComponentType) : string :=
  component_type_name t +:+ " component must have parameters".

Definition TooManyButtons (st : ButtonSubType) : string :=
  match st with
  | quick_reply => "Maximum 10 quick reply buttons allowed"
  | phone_number => "Maximum 1 phone number button allowed"
  | url => "Maximum 1 URL button allowed"
  | copy_code => "Maximum 1 copy code button allowed"
  end.

Inductive Exclusivity : Type :=
| quick_reply_with_others
| copy_code_with_phone_or_url.

Definition IncompatibleButtonTypes (e : Exclusivity) : string :=
  match e with
  | quick_reply_with_others =>
      "Quick reply buttons cannot be combined with other button types"
  | copy_code_with_phone_or_url =>
      "Copy code buttons cannot be combined with phone number or URL buttons"
  end.

Definition DuplicateButtonIndex : string := "Button indices must be unique".

Definition DuplicateButtonText : string := "Button texts must be unique".

Definition InteractiveButtonCountOutOfRange (too_many : bool) : string :=
  if too_many then "Interactive message can have maximum 3 buttons"
  else "Interactive message must have at least one button".

Definition DuplicateButtonId : string :=
  "Interactive message buttons must have unique IDs".

Definition DuplicateButtonTitle : string :=
  "Interactive message buttons must have unique titles".

(** ** Vocabulary of the statements *)

(** Characters. *)
Definition digit (c : ascii) : bool := RegExp.in_range "0" "9" c.
Definition nonzero_digit (c : ascii) : bool := RegExp.in_range "1" "9" c.
Definition lowercase (c : ascii) : bool := RegExp.in_range "a" "z" c.
Definition uppercase (c : ascii) : bool := RegExp.in_range "A" "Z" c.

(** The strings [phonePattern] describes: a first segment of one to four
    digits and a second segment of ten digits, each starting with a
    digit other than zero. *)
Definition phone_number_shape (s : string) : Prop :=
  ∃ (c : ascii) (cc : list ascii) (n : ascii) (nn : list ascii),
    list_ascii_of_string s = ((c :: cc) ++ n :: nn)%list
    ∧ nonzero_digit c = true ∧ Forall (λ x, digit x = true) cc ∧ length cc ≤ 3
    ∧ nonzero_digit n = true ∧ Forall (λ x, digit x = true) nn ∧ length nn = 9.

(** The strings [langCodePattern] describes. *)
Definition language_code_shape (s : string) : Prop :=
  ∃ a b c d : ascii,
    s = String a (String b (String "_" (String c (String d EmptyString))))
    ∧ lowercase a = true ∧ lowercase b = true
    ∧ uppercase c = true ∧ uppercase d = true.

(** The media variants of a message and their two locators. *)
Definition media_kind (c : Message.Content) : option MediaKind :=
  match c with
  | Message.image _ => Some Image
  | Message.document _ => Some Document
  | Message.video _ => Some Video
  | Message.audio _ => Some Audio
  | _ => None
  end.

Definition locator_link (c : Message.Content) : option string :=
  match c with
  | Message.image i => Message.image_link i
  | Message.document d => Message.document_link d
  | Message.video v => Message.video_link v
  | Message.audio a => Message.audio_link a
  | _ => None
  end.

Definition locator_id (c : Message.Content) : option string :=
  match c with
  | Message.image i => Message.image_id i
  | Message.document d => Message.document_id d
  | Message.video v => Message.video_id v
  | Message.audio a => Message.audio_id a
  | _ => None
  end.

(** The request [post] issues for a formatted message. *)
Definition post_request (d : RequestBody) (o : option RequestOptions) : Request :=
  {| method := POST; endpoint := ""; data := d; request_options := o |}.

(** The media object of a wire body [w], under the property named [k]. *)
Definition media_object (k : string) (w : list (string * JsValue))
  : option (list (string * JsValue)) :=
  match get_prop k w with
  | Some (JsObject o) => Some o
  | _ => None
  end.

(** The button components of a list, and those of one sub-type. *)
Definition buttons_of (cs : list TemplateComponent) : list TemplateComponent :=
  filter (λ comp, component_type comp = button) cs.

Definition sub_type_count (st : ButtonSubType) (bs : list TemplateComponent) : nat :=
  length (filter (λ btn, sub_type btn = Some st) bs).

Definition button_count (st : ButtonSubType) (cs : list TemplateComponent) : nat :=
  sub_type_count st (buttons_of cs).

Definition button_limit (st : ButtonSubType) : nat :=
  match st with
  | quick_reply => 10
  | _ => 1
  end.

(** No sub-type has more buttons than its limit. *)
Definition within_limits (cs : list TemplateComponent) : Prop :=
  ∀ st, button_count st cs ≤ button_limit st.

(** Quick-reply buttons stand alone, and so do copy-code buttons. *)
Definition compatible (cs : list TemplateComponent) : Prop :=
  (0 < button_count quick_reply cs →
   button_count phone_number cs = 0 ∧ button_count url cs = 0
   ∧ button_count copy_code cs = 0)
  ∧ (0 < button_count copy_code cs →
     button_count phone_number cs = 0 ∧ button_count url cs = 0).

(** Every component other than a button has at least one parameter. *)
Definition parameters_present (cs : list TemplateComponent) : Prop :=
  Forall (λ c, component_type c ≠ button → lacks_parameters c = false) cs.

(** Sample lists: a body component and [n] quick-reply buttons with
    the indices [0 .. n-1] and the texts ["A"], ["B"], ... *)
Definition quick_replies (n : nat) : list TemplateComponent :=
  (λ i, createQuickReplyButtonComponent (Z.of_nat i)
          (String (ascii_of_nat (65 + i)) EmptyString)) <$> seq 0 n.

Definition body_with_quick_replies (n : nat) : list TemplateComponent :=
  createBodyComponent ["John Doe"; "ORD-12345"] :: quick_replies n.

(** Scenario B of the specification: a body component, a quick-reply
    button and a URL button, both buttons at index 0. *)
Definition scenario_B : list TemplateComponent :=
  [ createBodyComponent ["John Doe"; "ORD-12345"];
    createQuickReplyButtonComponent 0 "Yes";
    createUrlButtonComponent 0 "https://example.com/track" ].

(** A body component without parameters in front of [n] quick-reply
    buttons. *)
Definition empty_body_with_quick_replies (n : nat) : list TemplateComponent :=
  createBodyComponent [] :: quick_replies n.

(** A URL button and a phone number button (the README's example). *)
Definition url_and_phone : list TemplateComponent :=
  [ createBodyComponent ["John Doe"];
    createUrlButtonComponent 0 "https://example.com/track";
    createPhoneNumberButtonComponent 1 "1234567890" ].

(** Two quick-reply buttons written without the [index] property. *)
Definition buttons_without_index : list TemplateComponent :=
  [ createBodyComponent ["John Doe"];
    {| component_type := button; sub_type := Some quick_reply; index := None;
       parameters := Some [text_parameter "Yes"] |};
    {| component_type := button; sub_type := Some quick_reply; index := None;
       parameters := Some [text_parameter "No"] |} ].

(** Two quick-reply buttons written without parameters. *)
Definition buttons_without_text : list TemplateComponent :=
  [ createBodyComponent ["John Doe"];
    {| component_type := button; sub_type := Some quick_reply; index := Some 0%Z;
       parameters := None |};
    {| component_type := button; sub_type := Some quick_reply; index := Some 1%Z;
       parameters := Some [] |} ].

(** Sample messages between two well-formed numbers. *)
Definition image_message (l i : option string) : Message.WhatsAppMessage :=
  {| Message.from := "14155550100";
     Message.to := "14155552671";
     Message.content := Message.image
       {| Message.image_link := l; Message.image_id := i;
          Message.image_caption := None |} |}.

Definition text_message (sender recipient : string) : Message.WhatsAppMessage :=
  {| Message.from := sender;
     Message.to := recipient;
     Message.content := Message.text
       {| Message.body := "Hello"; Message.preview_url := None |} |}.

Definition template_payload (recipient lang : string) : TemplateMessagePayload :=
  {| payload_to := recipient; templateName := "order_confirmation";
     langCode := lang; components := None; options := None |}.

(** A client that queues every message, for the examples. *)
Definition queueing_client (r : Request) : outcome ApiResponse :=
  Returned {| response_message := "Message queued";
              response_data := [];
              response_status := 200;
              statusText := "OK";
              response_headers := [] |}.

Definition example_config : SendZenConfig :=
  {| apiKey := "key"; config_from := "14155550100"; config_timeout := None |}.

(** ** [src/services/whatsapp-service.ts]: the other front ends *)

Section MoreServices.

Variable config : SendZenConfig.
Variable httpClient : Request → outcome ApiResponse.

Definition sendDocumentMessage (recipient documentUrl filename : string)
  (caption : option string) (o : option RequestOptions) : Service ApiResponse :=
  let message :=
    {| Message.from := getFromNumber config;
       Message.to := recipient;
       Message.content := Message.document
         {| Message.document_link := Some documentUrl;
            Message.document_id := None;
            Message.document_filename := filename;
            Message.document_caption := caption |} |} in
  sendMessage httpClient message o.

Definition sendDocumentMessageWithId (recipient mediaId filename : string)
  (caption : option string) (o : option RequestOptions) : Service ApiResponse :=
  let message :=
    {| Message.from := getFromNumber config;
       Message.to := recipient;
       Message.content := Message.document
         {| Message.document_link := None;
            Message.document_id := Some mediaId;
            Message.document_filename := filename;
            Message.document_caption := caption |} |} in
  sendMessage httpClient message o.

Definition sendVideoMessage (recipient videoUrl caption : string)
  (o : option RequestOptions) : Service ApiResponse :=
  let message :=
    {| Message.from := getFromNumber config;
       Message.to := recipient;
       Message.content := Message.video
         {| Message.video_link := Some videoUrl;
            Message.video_id := None;
            Message.video_caption := caption |} |} in
  sendMessage httpClient message o.

Definition sendVideoMessageWithId (recipient mediaId caption : string)
  (o : option RequestOptions) : Service ApiResponse :=
  let message :=
    {| Message.from := getFromNumber config;
       Message.to := recipient;
       Message.content := Message.video
         {| Message.video_link := None;
            Message.video_id := Some mediaId;
            Message.video_caption := caption |} |} in
  sendMessage httpClient message o.

Definition sendAudioMessage (recipient audioUrl : string)
  (o : option RequestOptions) : Service ApiResponse :=
  let message :=
    {| Message.from := getFromNumber config;
       Message.to := recipient;
       Message.content := Message.audio
         {| Message.audio_link := Some audioUrl;
            Message.audio_id := None |} |} in
  sendMessage httpClient message o.

Definition sendAudioMessageWithId (recipient mediaId : string)
  (o : option RequestOptions) : Service ApiResponse :=
  let message :=
    {| Message.from := getFromNumber config;
       Message.to := recipient;
       Message.content := Message.audio
         {| Message.audio_link := None;
            Message.audio_id := Some mediaId |} |} in
  sendMessage httpClient message o.

(** The six [sendInteractiveMessageWith...Header] functions have the
    same body and differ in the header of the object literal only:
    [{type: kind, [kind]: {[locator]: value}}]. [interactive_with_header]
    is that body, from the validation of the buttons to [sendMessage]. *)
Definition media_header (kind locator value : string) : JsValue :=
  JsObject [ ("type", JsString kind);
             (kind, JsObject [ (locator, JsString value) ]) ].

Definition interactive_with_header (hdr : JsValue) (recipient bodyText : string)
  (buttons : list Button) (footerText : option string)
  (o : option RequestOptions) : Service ApiResponse :=
  _ ← pure_call (validateInteractiveButtons buttons);
  let interactive0 :=
    [ ("type", JsString "button");
      ("header", hdr);
      ("body", JsObject [ ("text", JsString bodyText) ]);
      ("action", JsObject [ ("buttons", JsArray (reply_button <$> buttons)) ]) ] in
  let interactive1 :=
    if truthy footerText then
      set_prop "footer" (JsObject [ ("text", of_optional footerText) ]) interactive0
    else interactive0 in
  let message :=
    {| Message.from := getFromNumber config;
       Message.to := recipient;
       Message.content := Message.interactive (JsObject interactive1) |} in
  sendMessage httpClient message o.

Definition sendInteractiveMessageWithImageHeader (recipient bodyText : string)
  (buttons : list Button) (imageUrl : string) (footerText : option string)
  (o : option RequestOptions) : Service ApiResponse :=
  interactive_with_header (media_header "image" "link" imageUrl)
    recipient bodyText buttons footerText o.

Definition sendInteractiveMessageWithImageIdHeader (recipient bodyText : string)
  (buttons : list Button) (mediaId : string) (footerText : option string)
  (o : option RequestOptions) : Service ApiResponse :=
  interactive_with_header (media_header "image" "id" mediaId)
    recipient bodyText buttons footerText o.

Definition sendInteractiveMessageWithVideoHeader (recipient bodyText : string)
  (buttons : list Button) (videoUrl : string) (footerText : option string)
  (o : option RequestOptions) : Service ApiResponse :=
  interactive_with_header (media_header "video" "link" videoUrl)
    recipient bodyText buttons footerText o.

Definition sendInteractiveMessageWithVideoIdHeader (recipient bodyText : string)
  (buttons : list Button) (mediaId : string) (footerText : option string)
  (o : option RequestOptions) : Service ApiResponse :=
  interactive_with_header (media_header "video" "id" mediaId)
    recipient bodyText buttons footerText o.

Definition sendInteractiveMessageWithDocumentHeader (recipient bodyText : string)
  (buttons : list Button) (documentUrl : string) (footerText : option string)
  (o : option RequestOptions) : Service ApiResponse :=
  interactive_with_header (media_header "document" "link" documentUrl)
    recipient bodyText buttons footerText o.

Definition sendInteractiveMessageWithDocumentIdHeader (recipient bodyText : string)
  (buttons : list Button) (mediaId : string) (footerText : option string)
  (o : option RequestOptions) : Service ApiResponse :=
  interactive_with_header (media_header "document" "id" mediaId)
    recipient bodyText buttons footerText o.

End MoreServices.

(** The six header variants, to speak of the six functions at once. *)
Inductive HeaderVariant : Type :=
| ImageUrl | ImageMediaId | VideoUrl | VideoMediaId | DocumentUrl | DocumentMediaId.

Definition sendInteractiveMessageWith (config : SendZenConfig)
  (httpClient : Request → outcome ApiResponse) (v : HeaderVariant)
  : string → string → list Button → string → option string →
    option RequestOptions → Service ApiResponse :=
  match v with
  | ImageUrl => sendInteractiveMessageWithImageHeader config httpClient
  | ImageMediaId => sendInteractiveMessageWithImageIdHeader config httpClient
  | VideoUrl => sendInteractiveMessageWithVideoHeader config httpClient
  | VideoMediaId => sendInteractiveMessageWithVideoIdHeader config httpClient
  | DocumentUrl => sendInteractiveMessageWithDocumentHeader config httpClient
  | DocumentMediaId => sendInteractiveMessageWithDocumentIdHeader config httpClient
  end.

(** The header each variant puts on the wire for the value it is given. *)
Definition variant_header (v : HeaderVariant) (value : string) : JsValue :=
  match v with
  | ImageUrl =>
      JsObject [ ("type", JsString "image");
                 ("image", JsObject [ ("link", JsString value) ]) ]
  | ImageMediaId =>
      JsObject [ ("type", JsString "image");
                 ("image", JsObject [ ("id", JsString value) ]) ]
  | VideoUrl =>
      JsObject [ ("type", JsString "video");
                 ("video", JsObject [ ("link", JsString value) ]) ]
  | VideoMediaId =>
      JsObject [ ("type", JsString "video");
                 ("video", JsObject [ ("id", JsString value) ]) ]
  | DocumentUrl =>
      JsObject [ ("type", JsString "document");
                 ("document", JsObject [ ("link", JsString value) ]) ]
  | DocumentMediaId =>
      JsObject [ ("type", JsString "document");
                 ("document", JsObject [ ("id", JsString value) ]) ]
  end.

(** Reading a wire body back. *)
Definition object_prop (k : string) (v : JsValue) : option JsValue :=
  match v with
  | JsObject o => get_prop k o
  | _ => None
  end.

Definition decode_reply_button (v : JsValue) : option Button :=
  match object_prop "type" v, object_prop "reply" v with
  | Some (JsString "reply"), Some r =>
      match object_prop "id" r, object_prop "title" r with
      | Some (JsString i), Some (JsString t) => Some {| id := i; title := t |}
      | _, _ => None
      end
  | _, _ => None
  end.

(** The [interactive] object of a request, and the buttons in it. *)
Definition sent_interactive (r : Request) : option JsValue :=
  match data r with
  | Formatted w => object_prop "interactive" w
  | Template _ => None
  end.

Definition sent_buttons (r : Request) : option (list Button) :=
  i ← sent_interactive r;
  a ← object_prop "action" i;
  match object_prop "buttons" a with
  | Some (JsArray items) => mapM decode_reply_button items
  | _ => None
  end.

(** The wire body of an interactive message. *)
Definition interactive_wire (sender recipient : string) (i : list (string * JsValue))
  (o : option RequestOptions) : Request :=
  post_request
    (Formatted (JsObject
       [ ("from", JsString sender);
         ("To", JsString recipient);
         ("type", JsString "interactive");
         ("interactive", JsObject i) ]))
    o.

(** An optional property: present when the text is non-empty. *)
Definition optional_text_prop (k : string) (v : JsValue) (s : option string)
  : list (string * JsValue) :=
  if truthy s then [(k, v)] else [].

(** Two sample buttons. *)
Definition yes_no_buttons : list Button :=
  [ {| id := "yes"; title := "Yes" |}; {| id := "no"; title := "No" |} ].

(** Quick-reply buttons built with the constructor from pairs of an
    index and a text. *)
Definition quick_reply_buttons (bs : list (Z * string)) : list TemplateComponent :=
  (λ p, createQuickReplyButtonComponent p.1 p.2) <$> bs.

(** The components that the header constructors build from [s]. *)
Definition header_components (s : string) : list TemplateComponent :=
  [ createHeaderTextComponent s;
    createHeaderImageComponent s; createHeaderImageIdComponent s;
    createHeaderVideoComponent s; createHeaderVideoIdComponent s;
    createHeaderDocumentComponent s; createHeaderDocumentIdComponent s ].

(** The components of a payload are absent or pass the validation. *)
Definition components_accepted (p : TemplateMessagePayload) : Prop :=
  match components p with
  | Some cs => validateTemplateComponents cs = Returned ()
  | None => True
  end.

(** The request of a template message. *)
Definition template_request (sender : string) (p : TemplateMessagePayload) : Request :=
  post_request
    (Template {| template_from := sender;
                 template_to := payload_to p;
                 template_name := templateName p;
                 lang_code := langCode p;
                 template_components := components p |})
    (options p).

(** ** [src/services/base-service.ts]: pagination parameters

    A number is an integer here; [0] is the falsy one. *)

Module BaseService.

Inductive SortOrder : Type := asc | desc.

Definition sort_order_name (o : SortOrder) : string :=
  match o with
  | asc => "asc"
  | desc => "desc"
  end.

Record PaginationParams : Type := {
  page : option Z;
  limit : option Z;
  sortBy : option string;
  sortOrder : option SortOrder
}.

(** [if (n)] for [n : number | undefined] *)
Definition truthy_number (n : option Z) : bool :=
  match n with
  | Some z => negb (z =? 0)%Z
  | None => false
  end.

Definition of_optional_number (n : option Z) : JsValue :=
  match n with
  | Some z => JsNumber z
  | None => JsUndefined
  end.

Definition of_optional_order (o : option SortOrder) : JsValue :=
  match o with
  | Some v => JsString (sort_order_name v)
  | None => JsUndefined
  end.

Definition buildPaginationParams (params : option PaginationParams)
  : list (string * JsValue) :=
  match params with
  | None => []
  | Some params =>
      let result := [] in
      let result :=
        if truthy_number (page params)
        then set_prop "page" (of_optional_number (page params)) result
        else result in
      let result :=
        if truthy_number (limit params)
        then set_prop "limit" (of_optional_number (limit params)) result
        else result in
      let result :=
        if truthy (sortBy params)
        then set_prop "sort_by" (of_optional (sortBy params)) result
        else result in
      let result :=
        if bool_decide (is_Some (sortOrder params))
        then set_prop "sort_order" (of_optional_order (sortOrder params)) result
        else result in
      result
  end.

End BaseService.

(** ** The HTTP client ([src/client/http-client.ts]): its pure helpers

    The body of a response and the properties of an error are untyped;
    they are read with [?.] and [||]. *)

Module HttpClient.

(** [if (v)] for any value *)
Definition js_truthy (v : JsValue) : bool :=
  match v with
  | JsUndefined => false
  | JsBoolean b => b
  | JsNumber n => negb (n =? 0)%Z
  | JsString s => negb (String.eqb s "")
  | JsArray _ => true
  | JsObject _ => true
  end.

(** [a || b] *)
Definition js_or (a b : JsValue) : JsValue :=
  if js_truthy a then a else b.

(** [v?.k], for a key that only an object can have *)
Definition js_get (v : JsValue) (k : string) : JsValue :=
  match v with
  | JsObject o => default JsUndefined (get_prop k o)
  | _ => JsUndefined
  end.

Record AxiosResponse : Type := {
  data : JsValue;
  status : Z;
  statusText : string;
  headers : list (string * string)
}.

(** What [handleError] reads of an error: [error.response],
    [error.request] and [error.message]. *)
Record AxiosError : Type := {
  response : option AxiosResponse;
  request : JsValue;
  message : JsValue
}.

Record ApiError : Type := {
  error_message : JsValue;
  error_code : JsValue;
  error_details : JsValue;
  error_status : option Z
}.

Definition handleError (error : AxiosError) : ApiError :=
  match response error with
  | Some r =>
      {| error_message :=
           js_or (js_or (js_get (data r) "message") (JsString (statusText r)))
                 (JsString "Request failed");
         error_code :=
           js_or (js_get (js_get (data r) "error") "code") (JsString "API_ERROR");
         error_details :=
           js_or (js_get (js_get (data r) "error") "details")
                 (JsString "Unknown error details");
         error_status := Some (status r) |}
  | None =>
      if js_truthy (request error) then
        {| error_message := JsString "Network error - no response received";
           error_code := JsString "NETWORK_ERROR";
           error_details := JsString "No response received from server";
           error_status := Some 0%Z |}
      else
        {| error_message :=
             js_or (message error) (JsString "Unknown error occurred");
           error_code := JsString "UNKNOWN_ERROR";
           error_details := JsString "An unexpected error occurred";
           error_status := None |}
  end.

Record FormattedResponse : Type := {
  formatted_message : JsValue;
  formatted_data : JsValue;
  formatted_status : Z;
  formatted_statusText : string;
  formatted_headers : list (string * string)
}.

Definition formatResponse (r : AxiosResponse) : FormattedResponse :=
  {| formatted_message := js_or (js_get (data r) "message") (JsString "Success");
     formatted_data := js_or (js_get (data r) "data") (data r);
     formatted_status := status r;
     formatted_statusText := statusText r;
     formatted_headers := headers r |}.

Record AxiosRequestConfig : Type := {
  config_timeout_ms : option Z;
  config_headers : option (list (string * string))
}.

(** [{...config.headers, ...options.headers}] with [config.headers]
    still undefined: a copy of [options.headers]. *)
Definition buildRequestConfig (o : option RequestOptions) : AxiosRequestConfig :=
  let config := {| config_timeout_ms := None; config_headers := None |} in
  let config :=
    if BaseService.truthy_number (o ≫= opt_timeout)
    then {| config_timeout_ms := o ≫= opt_timeout;
            config_headers := config_headers config |}
    else config in
  let config :=
    match o ≫= opt_headers with
    | Some h => {| config_timeout_ms := config_timeout_ms config;
                   config_headers := Some h |}
    | None => config
    end in
  config.

End HttpClient.

(** ** [src/core/sendzen-sdk.ts]: the SDK object

    The state of a [WaMessageApi]: its configuration, its developer
    options and its HTTP client (of which the base URL, the API key, the
    [Authorization] header, the default timeout and the developer
    options are kept). An object that is spread into another one is
    kept with its keys: a key may be missing, or be there with a value
    that may be [undefined]. [config.developerOptions] is given beside
    the configuration. *)

Module Sdk.

(** An optional property of an object: [absent] when the object does
    not have the key, [present v] when it has it, with [v = None] for
    the value [undefined]. *)
Inductive slot (A : Type) : Type :=
| absent
| present (v : option A).
Arguments absent {A}.
Arguments present {A} v.

(** [o.k] *)
Definition read {A : Type} (s : slot A) : option A :=
  match s with
  | absent => None
  | present v => v
  end.

(** One property of [{...a, ...b}]: that of [b] when [b] has the key,
    whatever its value. *)
Definition override {A : Type} (b a : slot A) : slot A :=
  match b with
  | present v => present v
  | absent => a
  end.

(** [`${v}`] *)
Definition template (v : option string) : string := default "undefined" v.

Inductive LogKind : Type := log_request | log_response | log_error | log_debug.

Inductive LogLevel : Type := level_debug | level_info | level_warn | level_error.

Inductive LogFormat : Type := json | pretty.

#[global] Instance LogKind_eq_dec : EqDecision LogKind.
Proof. solve_decision. Defined.

Record DeveloperOptions : Type := {
  logs : slot (list LogKind);
  logLevel : slot LogLevel;
  logFormat : slot LogFormat;
  enableRequestLogging : slot bool;
  enableResponseLogging : slot bool;
  enableErrorLogging : slot bool;
  enableDebugLogging : slot bool
}.

(** [{...a, ...b}] *)
Definition spread (a b : DeveloperOptions) : DeveloperOptions :=
  {| logs := override (logs b) (logs a);
     logLevel := override (logLevel b) (logLevel a);
     logFormat := override (logFormat b) (logFormat a);
     enableRequestLogging :=
       override (enableRequestLogging b) (enableRequestLogging a);
     enableResponseLogging :=
       override (enableResponseLogging b) (enableResponseLogging a);
     enableErrorLogging := override (enableErrorLogging b) (enableErrorLogging a);
     enableDebugLogging := override (enableDebugLogging b) (enableDebugLogging a) |}.

Definition defaultOptions : DeveloperOptions :=
  {| logs := present (Some []);
     logLevel := present (Some level_info);
     logFormat := present (Some pretty);
     enableRequestLogging := present (Some false);
     enableResponseLogging := present (Some false);
     enableErrorLogging := present (Some false);
     enableDebugLogging := present (Some false) |}.

Definition initializeDeveloperOptions (options : option DeveloperOptions)
  : DeveloperOptions :=
  match options with
  | None => defaultOptions
  | Some options =>
      match read (logs options) with
      | Some (k :: ks) =>
          let merged := spread defaultOptions options in
          {| logs := logs merged;
             logLevel := logLevel merged;
             logFormat := logFormat merged;
             enableRequestLogging :=
               present (Some (bool_decide (log_request ∈ k :: ks)));
             enableResponseLogging :=
               present (Some (bool_decide (log_response ∈ k :: ks)));
             enableErrorLogging :=
               present (Some (bool_decide (log_error ∈ k :: ks)));
             enableDebugLogging :=
               present (Some (bool_decide (log_debug ∈ k :: ks))) |}
      | _ => spread defaultOptions options
      end
  end.

Record HttpClient : Type := {
  baseUrl : string;
  client_apiKey : option string;
  authorization : string;
  defaultTimeout : Z;
  client_developerOptions : DeveloperOptions
}.

(** [new HttpClient(baseUrl, apiKey, timeout = 30000, developerOptions)],
    with developer options that are always given. *)
Definition newHttpClient (url : string) (key : option string) (timeout : option Z)
  (dev : DeveloperOptions) : HttpClient :=
  {| baseUrl := url;
     client_apiKey := key;
     authorization := "Bearer " +:+ template key;
     defaultTimeout := default 30000%Z timeout;
     client_developerOptions := dev |}.

Definition updateApiKey (key : string) (c : HttpClient) : HttpClient :=
  {| baseUrl := baseUrl c;
     client_apiKey := Some key;
     authorization := "Bearer " +:+ key;
     defaultTimeout := defaultTimeout c;
     client_developerOptions := client_developerOptions c |}.

(** [this.config]. It always has the three keys; what is kept is their
    values, which [updateConfig] can make [undefined]. *)
Record Config : Type := {
  cfg_apiKey : option string;
  cfg_from : option string;
  cfg_timeout : option Z
}.

(** The configuration given to the constructor: a key and a sender, and
    a timeout key that may be missing or hold [undefined]. *)
Record ConfigInput : Type := {
  in_apiKey : string;
  in_from : string;
  in_timeout : slot Z
}.

Record WaMessageApi : Type := {
  config : Config;
  developerOptions : DeveloperOptions;
  httpClient : HttpClient
}.

Definition messages_url : string := "https://api.sendzen.io/v1/messages".

Definition constructor (c : ConfigInput) (dev : option DeveloperOptions)
  : outcome WaMessageApi :=
  let this_config :=
    {| cfg_apiKey := Some (in_apiKey c);
       cfg_from := Some (in_from c);
       cfg_timeout := read (override (in_timeout c) (present (Some 30000%Z))) |} in
  if negb (truthy (cfg_apiKey this_config)) then Thrown "API key is required"
  else if negb (truthy (cfg_from this_config)) then
    Thrown "From phone number is required"
  else
    let this_developerOptions := initializeDeveloperOptions dev in
    Returned
      {| config := this_config;
         developerOptions := this_developerOptions;
         httpClient :=
           newHttpClient messages_url (cfg_apiKey this_config)
             (cfg_timeout this_config) this_developerOptions |}.


Definition updateDeveloperOptions (options : DeveloperOptions) (this : WaMessageApi)
  : WaMessageApi :=
  let this_developerOptions := spread (developerOptions this) options in
  {| config := config this;
     developerOptions := this_developerOptions;
     httpClient :=
       newHttpClient messages_url (cfg_apiKey (config this))
         (cfg_timeout (config this)) this_developerOptions |}.

Definition getConfig (this : WaMessageApi) : Config :=
  {| cfg_apiKey := cfg_apiKey (config this);
     cfg_from := cfg_from (config this);
     cfg_timeout := cfg_timeout (config this) |}.

(** [Partial<SendZenConfig>] *)
Record PartialConfig : Type := {
  new_apiKey : slot string;
  new_from : slot string;
  new_timeout : slot Z
}.

Definition updateConfig (newConfig : PartialConfig) (this : WaMessageApi)
  : WaMessageApi :=
  let this_config :=
    {| cfg_apiKey :=
         read (override (new_apiKey newConfig) (present (cfg_apiKey (config this))));
       cfg_from :=
         read (override (new_from newConfig) (present (cfg_from (config this))));
       cfg_timeout :=
         read (override (new_timeout newConfig)
                 (present (cfg_timeout (config this)))) |} in
  {| config := this_config;
     developerOptions := developerOptions this;
     httpClient :=
       match read (new_apiKey newConfig) with
       | Some key =>
           if truthy (Some key) then updateApiKey key (httpClient this)
           else httpClient this
       | None => httpClient this
       end |}.

Definition getFromNumber (this : WaMessageApi) : option string :=
  cfg_from (config this).

(** The client holds the API key of the configuration. *)
Definition key_in_sync (this : WaMessageApi) : Prop :=
  client_apiKey (httpClient this) = cfg_apiKey (config this)
  ∧ authorization (httpClient this)
    = "Bearer " +:+ template (cfg_apiKey (config this)).

(** The four logging switches. *)
Definition switches (o : DeveloperOptions) : list (slot bool) :=
  [ enableRequestLogging o; enableResponseLogging o;
    enableErrorLogging o; enableDebugLogging o ].

(** Every key of the developer options is there. *)
Definition is_present {A : Type} (s : slot A) : Prop :=
  match s with
  | present _ => True
  | absent => False
  end.

Definition all_keys (o : DeveloperOptions) : Prop :=
  is_present (logs o) ∧ is_present (logLevel o) ∧ is_present (logFormat o)
  ∧ Forall is_present (switches o).

(** A sample configuration for the constructor. *)
Definition example_input : ConfigInput :=
  {| in_apiKey := "key"; in_from := "14155550100"; in_timeout := absent |}.

End Sdk.


(** * Properties *)

(** ** The matcher computes the words of the expression *)

Section RegExpFacts.
Import RegExp.

Lemma run_lang (r : regex) (w rest : list ascii) :
  rest ∈ run r w ↔ ∃ pre, w = (pre ++ rest)%list ∧ lang r pre.
Proof.
  revert w rest. induction r as [| lo hi | a | r1 IH1 r2 IH2 | r1 IH1 r2 IH2];
    intros w rest; simpl.
  - rewrite list_elem_of_singleton. split.
    + intros ->. exists []. split; [done | constructor].
    + intros (pre & -> & Hp). by inversion Hp.
  - split.
    + destruct w as [| c w']; [by rewrite elem_of_nil |].
      destruct (in_range lo hi c) eqn:Hc; [| by rewrite elem_of_nil].
      rewrite list_elem_of_singleton. intros ->.
      exists [c]. split; [done | by constructor].
    + intros (pre & -> & Hp). inversion Hp as [| ? ? c Hc | | | |]; subst; simpl.
      rewrite Hc. by apply list_elem_of_singleton.
  - split.
    + destruct w as [| c w']; [by rewrite elem_of_nil |].
      destruct (Ascii.eqb a c) eqn:Hc; [| by rewrite elem_of_nil].
      apply Ascii.eqb_eq in Hc as ->.
      rewrite list_elem_of_singleton. intros ->.
      exists [c]. split; [done | constructor].
    + intros (pre & -> & Hp). inversion Hp; subst; simpl.
      rewrite Ascii.eqb_refl. by apply list_elem_of_singleton.
  - rewrite list_elem_of_bind. split.
    + intros (mid & Hrest & Hmid).
      apply IH1 in Hmid as (u & -> & Hu). apply IH2 in Hrest as (v & -> & Hv).
      exists (u ++ v)%list. split; [by rewrite <- app_assoc | by constructor].
    + intros (pre & -> & Hp). inversion Hp; subst.
      exists (v ++ rest)%list. split.
      * apply IH2. by exists v.
      * apply IH1. exists u. by rewrite <- app_assoc.
  - rewrite elem_of_app, IH1, IH2. split.
    + intros [(pre & -> & Hp) | (pre & -> & Hp)]; exists pre; split; try done.
      * by apply lang_alt_l.
      * by apply lang_alt_r.
    + intros (pre & -> & Hp). inversion Hp; subst; [left | right]; by exists pre.
Qed.

Lemma test_lang (r : regex) (s : string) :
  test r s = true ↔ lang r (list_ascii_of_string s).
Proof.
  unfold test. rewrite existsb_exists. split.
  - intros (x & Hin & Hnil). destruct x; [| done].
    apply list_elem_of_In, run_lang in Hin as (pre & Hw & Hp).
    rewrite app_nil_r in Hw. by rewrite Hw.
  - intros Hl. exists []. split; [| done].
    apply list_elem_of_In, run_lang. exists (list_ascii_of_string s).
    by rewrite app_nil_r.
Qed.

Lemma lang_cat_inv (r s : regex) (w : list ascii) :
  lang (Cat r s) w ↔ ∃ u v, w = (u ++ v)%list ∧ lang r u ∧ lang s v.
Proof.
  split.
  - intros H. inversion H; subst. by exists u, v.
  - intros (u & v & -> & Hu & Hv). by constructor.
Qed.

Lemma lang_range_inv (lo hi : ascii) (w : list ascii) :
  lang (Range lo hi) w ↔ ∃ c, w = [c] ∧ in_range lo hi c = true.
Proof.
  split.
  - intros H. inversion H; subst. by exists c.
  - intros (c & -> & Hc). by constructor.
Qed.

Lemma lang_rep_range (n : nat) (lo hi : ascii) (w : list ascii) :
  lang (rep n (Range lo hi)) w
  ↔ length w = n ∧ Forall (λ c, in_range lo hi c = true) w.
Proof.
  revert w. induction n as [| n IH]; intros w; simpl.
  - split.
    + intros H. inversion H; subst. by split.
    + intros [Hlen _]. destruct w; [constructor | done].
  - rewrite lang_cat_inv. split.
    + intros (u & v & -> & Hu & Hv).
      apply lang_range_inv in Hu as (c & -> & Hc). apply IH in Hv as [<- Hv].
      split; [done | by constructor].
    + intros [Hlen Hall]. destruct w as [| c w]; [done |].
      inversion Hall; subst. exists [c], w. split; [done |]. split.
      * by constructor.
      * apply IH. split; [by injection Hlen | done].
Qed.

Lemma lang_upto_range (n : nat) (lo hi : ascii) (w : list ascii) :
  lang (upto n (Range lo hi)) w
  ↔ length w ≤ n ∧ Forall (λ c, in_range lo hi c = true) w.
Proof.
  revert w. induction n as [| n IH]; intros w; simpl.
  - split.
    + intros H. inversion H; subst. by split.
    + intros [Hlen _]. destruct w; [constructor | simpl in Hlen; lia].
  - split.
    + intros H. inversion H as [| | | | ? ? ? Hc | ? ? ? He]; subst.
      * apply lang_cat_inv in Hc as (u & v & -> & Hu & Hv).
        apply lang_range_inv in Hu as (c & -> & Hc). apply IH in Hv as [Hlen Hv].
        split; [simpl; lia | by constructor].
      * inversion He; subst. split; [simpl; lia | constructor].
    + intros [Hlen Hall]. destruct w as [| c w].
      * apply lang_alt_r. constructor.
      * inversion Hall; subst. apply lang_alt_l, lang_cat_inv.
        exists [c], w. split; [done |]. split; [by constructor |].
        apply IH. split; [simpl in Hlen; lia | done].
Qed.

End RegExpFacts.

(** ** The two syntactic validators *)

Section Validators.
Import RegExp.

Lemma lang_lit_inv (a : ascii) (w : list ascii) : lang (Lit a) w ↔ w = [a].
Proof.
  split.
  - intros H. by inversion H.
  - intros ->. constructor.
Qed.

Lemma length_list_ascii (s : string) :
  length (list_ascii_of_string s) = String.length s.
Proof. induction s as [| c s IH]; simpl; [done | by rewrite IH]. Qed.

Lemma validatePhoneNumber_shape (s : string) :
  validatePhoneNumber s = true ↔ phone_number_shape s.
Proof.
  unfold validatePhoneNumber, phone_number_shape, phonePattern.
  rewrite andb_true_iff, test_lang, Nat.leb_le, <- length_list_ascii.
  split.
  - intros [Hl _].
    apply lang_cat_inv in Hl as (u1 & r1 & -> & Hc & Hl).
    apply lang_range_inv in Hc as (c & -> & Hc).
    apply lang_cat_inv in Hl as (cc & r2 & -> & Hcc & Hl).
    apply lang_upto_range in Hcc as [Hlen Hcc].
    apply lang_cat_inv in Hl as (u3 & nn & -> & Hn & Hnn).
    apply lang_range_inv in Hn as (n & -> & Hn).
    apply lang_rep_range in Hnn as [Hlen' Hnn].
    exists c, cc, n, nn. by split_and!.
  - intros (c & cc & n & nn & Hw & Hc & Hcc & Hlen & Hn & Hnn & Hlen').
    rewrite Hw. split.
    + change ((c :: cc) ++ n :: nn)%list with ([c] ++ cc ++ [n] ++ nn)%list.
      apply lang_cat. { by constructor. }
      apply lang_cat. { by apply lang_upto_range. }
      apply lang_cat. { by constructor. }
      by apply lang_rep_range.
    + rewrite length_app. simpl. lia.
Qed.

Lemma validatePhoneNumber_length (s : string) :
  validatePhoneNumber s = true → 11 ≤ String.length s ≤ 14.
Proof.
  intros (c & cc & n & nn & Hw & _ & _ & Hlen & _ & _ & Hlen')%validatePhoneNumber_shape.
  rewrite <- length_list_ascii, Hw, length_app. simpl. lia.
Qed.

Lemma validateLanguageCode_shape (s : string) :
  validateLanguageCode s = true ↔ language_code_shape s.
Proof.
  unfold validateLanguageCode, language_code_shape, langCodePattern.
  rewrite test_lang. split.
  - intros Hl.
    apply lang_cat_inv in Hl as (u & r1 & Hw & Hu & Hl).
    apply lang_rep_range in Hu as [Hlen Hu].
    apply lang_cat_inv in Hl as (x & v & -> & Hx & Hv).
    apply lang_lit_inv in Hx as ->.
    apply lang_rep_range in Hv as [Hlen' Hv].
    destruct u as [| a [| b [| ? ?]]]; try done.
    destruct v as [| c [| d [| ? ?]]]; try done.
    inversion Hu as [| ? ? Ha Hu']; subst. inversion Hu' as [| ? ? Hb _]; subst.
    inversion Hv as [| ? ? Hc Hv']; subst. inversion Hv' as [| ? ? Hd _]; subst.
    exists a, b, c, d. split; [| done].
    rewrite <- (string_of_list_ascii_of_string s), Hw. done.
  - intros (a & b & c & d & -> & Ha & Hb & Hc & Hd). cbn [list_ascii_of_string].
    change [a; b; "_"%char; c; d] with ([a; b] ++ ["_"%char] ++ [c; d])%list.
    apply lang_cat. { apply lang_rep_range. split; [done |]. by repeat constructor. }
    apply lang_cat. { constructor. }
    apply lang_rep_range. split; [done |]. by repeat constructor.
Qed.

End Validators.

(** ** Sending: the syntactic checks come first *)

Section Sending.
Variable httpClient : Request → outcome ApiResponse.

Lemma sendMessage_invalid_from m o net :
  validatePhoneNumber (Message.from m) = false →
  sendMessage httpClient m o net = (Thrown (InvalidSender (Message.from m)), net).
Proof. intros H. unfold sendMessage. by rewrite H. Qed.

Lemma sendMessage_invalid_to m o net :
  validatePhoneNumber (Message.from m) = true →
  validatePhoneNumber (Message.to m) = false →
  sendMessage httpClient m o net = (Thrown (InvalidRecipient (Message.to m)), net).
Proof. intros H1 H2. unfold sendMessage. by rewrite H1, H2. Qed.

Lemma sendMessage_valid m o net :
  validatePhoneNumber (Message.from m) = true →
  validatePhoneNumber (Message.to m) = true →
  sendMessage httpClient m o net =
    match formatMessage m with
    | Returned w =>
        let r := post_request (Formatted (JsObject w)) o in
        (httpClient r, (net ++ [r])%list)
    | Thrown msg => (Thrown msg, net)
    end.
Proof.
  intros H1 H2. unfold sendMessage. rewrite H1, H2. simpl.
  unfold mbind, Service_bind, pure_call. by destruct (formatMessage m).
Qed.

End Sending.

(** ** Sets of JavaScript values *)

Section SetSize.
Context {A : Type} `{!EqDecision A, !Countable A}.

Lemma Set_size_cons_in (x : A) (l : list A) :
  x ∈ l → Set_size (x :: l) = Set_size l.
Proof.
  intros Hx. unfold Set_size. simpl. f_equal.
  apply subseteq_union_1_L, singleton_subseteq_l. by apply elem_of_list_to_set.
Qed.

Lemma Set_size_cons_notin (x : A) (l : list A) :
  x ∉ l → Set_size (x :: l) = S (Set_size l).
Proof.
  intros Hx. unfold Set_size. simpl.
  rewrite size_union, size_singleton; [done |].
  apply disjoint_singleton_l. by rewrite elem_of_list_to_set.
Qed.

Lemma Set_size_le (l : list A) : Set_size l ≤ length l.
Proof.
  induction l as [| x l IH]; [done |].
  destruct (decide (x ∈ l)).
  - rewrite Set_size_cons_in by done. simpl. lia.
  - rewrite Set_size_cons_notin by done. simpl. lia.
Qed.

Lemma Set_size_NoDup (l : list A) : Set_size l = length l ↔ NoDup l.
Proof.
  induction l as [| x l IH].
  - split; [constructor | done].
  - rewrite NoDup_cons. destruct (decide (x ∈ l)) as [Hx | Hx].
    + rewrite Set_size_cons_in by done. pose proof (Set_size_le l). simpl.
      split; [lia | tauto].
    + rewrite Set_size_cons_notin by done. simpl. rewrite <- IH.
      split; [intros; split; [done | lia] | intros [_ ->]; done].
Qed.

End SetSize.

(** ** Template component validation *)

Lemma validateButtonComponents_nil : validateButtonComponents [] = Returned ().
Proof. by vm_compute. Qed.

(** The button checks run first, on the button components alone; the
    parameter check runs after them, on the whole list. *)
Lemma validateTemplateComponents_eq (cs : list TemplateComponent) :
  validateTemplateComponents cs =
    validateButtonComponents (buttons_of cs) ≫= λ _, requireParameters cs.
Proof.
  unfold validateTemplateComponents. fold (buttons_of cs).
  case_decide as Hlen; [done |].
  destruct (buttons_of cs); [by rewrite validateButtonComponents_nil | simpl in Hlen; lia].
Qed.

Ltac button_checks :=
  unfold validateButtonComponents; cbv zeta;
  repeat match goal with
    | |- context [length (filter (λ btn, sub_type btn = Some ?st) ?bs)] =>
        change (length (filter (λ btn, sub_type btn = Some st) bs))
          with (sub_type_count st bs)
    end.

Lemma validateButtonComponents_cases (bs : list TemplateComponent) :
  let q := sub_type_count quick_reply bs in
  let p := sub_type_count phone_number bs in
  let u := sub_type_count url bs in
  let c := sub_type_count copy_code bs in
  validateButtonComponents bs =
    if decide (10 < q) then Thrown (TooManyButtons quick_reply)
    else if decide (1 < p) then Thrown (TooManyButtons phone_number)
    else if decide (1 < u) then Thrown (TooManyButtons url)
    else if decide (1 < c) then Thrown (TooManyButtons copy_code)
    else if decide (0 < q ∧ (0 < p ∨ 0 < u ∨ 0 < c)) then
      Thrown (IncompatibleButtonTypes quick_reply_with_others)
    else if decide (0 < c ∧ (0 < p ∨ 0 < u)) then
      Thrown (IncompatibleButtonTypes copy_code_with_phone_or_url)
    else if decide (NoDup (index <$> bs)) then
      if decide (NoDup (first_text <$> bs)) then Returned ()
      else Thrown DuplicateButtonText
    else Thrown DuplicateButtonIndex.
Proof.
  intros q p u c. button_checks. fold q p u c.
  repeat (case_decide; try done);
    repeat (case_bool_decide; simpl; try done);
    rewrite ?Set_size_NoDup in *; try tauto; try lia.
Qed.

Lemma requireParameters_present (cs : list TemplateComponent) :
  parameters_present cs → requireParameters cs = Returned ().
Proof.
  induction 1 as [| c cs Hc _ IH]; [done |]. simpl.
  case_bool_decide as Hb; [| done]. by rewrite (Hc Hb).
Qed.

Lemma requireParameters_missing (cs : list TemplateComponent) (c : TemplateComponent) :
  c ∈ cs → component_type c ≠ button → lacks_parameters c = true →
  ∃ t, t ≠ button ∧ requireParameters cs = Thrown (EmptyComponentParameters t).
Proof.
  intros Hin Hb Hl. induction cs as [| c' cs IH]; [by apply elem_of_nil in Hin |].
  simpl. destruct (bool_decide (component_type c' ≠ button) && lacks_parameters c') eqn:Hc'.
  - apply andb_true_iff in Hc' as [Hb'%bool_decide_eq_true _].
    by exists (component_type c').
  - apply elem_of_cons in Hin as [-> | Hin]; [| by apply IH].
    by rewrite Hl, bool_decide_eq_true_2 in Hc'.
Qed.

Lemma validateTemplateComponents_button_error cs msg :
  validateButtonComponents (buttons_of cs) = Thrown msg →
  validateTemplateComponents cs = Thrown msg.
Proof. intros H. by rewrite validateTemplateComponents_eq, H. Qed.

Lemma validateTemplateComponents_buttons_pass cs :
  validateButtonComponents (buttons_of cs) = Returned () →
  validateTemplateComponents cs = requireParameters cs.
Proof. intros H. by rewrite validateTemplateComponents_eq, H. Qed.

Lemma sub_type_count_pos (bs : list TemplateComponent) (b : TemplateComponent)
  (st : ButtonSubType) :
  b ∈ bs → sub_type b = Some st → 0 < sub_type_count st bs.
Proof.
  intros Hin Hst. unfold sub_type_count.
  assert (b ∈ filter (λ btn, sub_type btn = Some st) bs) as Hf
    by by apply list_elem_of_filter.
  destruct (filter _ bs); [by apply elem_of_nil in Hf | simpl; lia].
Qed.

Lemma button_count_pos (cs : list TemplateComponent) (b : TemplateComponent)
  (st : ButtonSubType) :
  b ∈ cs → component_type b = button → sub_type b = Some st →
  0 < button_count st cs.
Proof.
  intros Hin Hb Hst. apply (sub_type_count_pos _ b); [| done].
  by apply list_elem_of_filter.
Qed.


(** ** Claims on template component validation *)

Ltac button_cases cs :=
  rewrite (validateButtonComponents_cases (buttons_of cs)); cbv zeta;
  fold (button_count quick_reply cs) (button_count phone_number cs)
       (button_count url cs) (button_count copy_code cs).

(** C5. Whenever some button sub-type has more buttons than its limit
    (10 for quick_reply, 1 for phone_number, url and copy_code), the
    validation fails with TooManyButtons, for a sub-type that is over its
    limit. A list with exactly 10 quick_reply buttons and no other
    violation (no button of another sub-type, distinct indices, distinct
    texts, parameters on every other component) is accepted. *)
Theorem button_limits (cs : list TemplateComponent) :
  ((∃ st, button_limit st < button_count st cs) →
   ∃ st, button_limit st < button_count st cs
         ∧ validateTemplateComponents cs = Thrown (TooManyButtons st))
  ∧ (button_count quick_reply cs = 10 →
     button_count phone_number cs = 0 →
     button_count url cs = 0 →
     button_count copy_code cs = 0 →
     NoDup (index <$> buttons_of cs) →
     NoDup (first_text <$> buttons_of cs) →
     parameters_present cs →
     validateTemplateComponents cs = Returned ()).
Proof.
  split.
  - intros Hover.
    assert (∃ st, button_limit st < button_count st cs
                  ∧ validateButtonComponents (buttons_of cs)
                    = Thrown (TooManyButtons st)) as (st & Hst & Hthrown).
    { button_cases cs.
      destruct (decide (10 < button_count quick_reply cs)); [by exists quick_reply |].
      destruct (decide (1 < button_count phone_number cs)); [by exists phone_number |].
      destruct (decide (1 < button_count url cs)); [by exists url |].
      destruct (decide (1 < button_count copy_code cs)); [by exists copy_code |].
      destruct Hover as [[] Hst]; simpl in Hst; lia. }
    exists st. split; [done |]. by apply validateTemplateComponents_button_error.
  - intros Hq Hp Hu Hc Hidx Htxt Hpar.
    rewrite validateTemplateComponents_buttons_pass.
    + by apply requireParameters_present.
    + button_cases cs. rewrite Hq, Hp, Hu, Hc.
      repeat (case_decide; try lia); tauto.
Qed.

(** C6. Within the limits, quick_reply buttons together with buttons of
    any other sub-type, or copy_code buttons together with phone_number
    or url buttons, fail with IncompatibleButtonTypes. One url and one
    phone_number button, with distinct indices and texts and neither
    quick_reply nor copy_code buttons, are accepted. *)
Theorem button_exclusivity (cs : list TemplateComponent) :
  within_limits cs →
  ((0 < button_count quick_reply cs
    ∧ (0 < button_count phone_number cs ∨ 0 < button_count url cs
       ∨ 0 < button_count copy_code cs))
   ∨ (0 < button_count copy_code cs
      ∧ (0 < button_count phone_number cs ∨ 0 < button_count url cs)) →
   ∃ e, validateTemplateComponents cs = Thrown (IncompatibleButtonTypes e))
  ∧ (button_count url cs = 1 →
     button_count phone_number cs = 1 →
     button_count quick_reply cs = 0 →
     button_count copy_code cs = 0 →
     NoDup (index <$> buttons_of cs) →
     NoDup (first_text <$> buttons_of cs) →
     parameters_present cs →
     validateTemplateComponents cs = Returned ()).
Proof.
  intros Hlim.
  pose proof (Hlim quick_reply) as Hq. pose proof (Hlim phone_number) as Hp.
  pose proof (Hlim url) as Hu. pose proof (Hlim copy_code) as Hc.
  simpl in Hq, Hp, Hu, Hc. split.
  - intros Hmix.
    assert (∃ e, validateButtonComponents (buttons_of cs)
                 = Thrown (IncompatibleButtonTypes e)) as [e He].
    { button_cases cs. repeat (case_decide; try lia); try tauto; by eexists. }
    exists e. by apply validateTemplateComponents_button_error.
  - intros Hu1 Hp1 Hq0 Hc0 Hidx Htxt Hpar.
    rewrite validateTemplateComponents_buttons_pass.
    + by apply requireParameters_present.
    + button_cases cs. rewrite Hq0, Hp1, Hu1, Hc0.
      repeat (case_decide; try lia); tauto.
Qed.

Lemma button_count_scenario (cs : list TemplateComponent) :
  (within_limits cs
   ∧ ∀ msg, validateButtonComponents (buttons_of cs) = Thrown msg →
            ∀ st, msg ≠ TooManyButtons st)
  ∨ (∃ st, button_limit st < button_count st cs
           ∧ validateButtonComponents (buttons_of cs) = Thrown (TooManyButtons st)).
Proof.
  button_cases cs.
  destruct (decide (10 < button_count quick_reply cs)); [right; by exists quick_reply |].
  destruct (decide (1 < button_count phone_number cs)); [right; by exists phone_number |].
  destruct (decide (1 < button_count url cs)); [right; by exists url |].
  destruct (decide (1 < button_count copy_code cs)); [right; by exists copy_code |].
  left. split.
  - intros []; simpl; lia.
  - intros msg Hmsg st. repeat case_decide; simplify_eq; by destruct st.
Qed.

(** C1, as the code has it. A list that contains a quick_reply button and a url
    button is rejected before the indices are looked at: within the
    limits it fails with IncompatibleButtonTypes, outside them with
    TooManyButtons; it never fails with DuplicateButtonIndex, whatever
    the two indices are. *)
Theorem quick_reply_with_url_rejected (cs : list TemplateComponent)
  (q u : TemplateComponent) :
  q ∈ cs → component_type q = button → sub_type q = Some quick_reply →
  u ∈ cs → component_type u = button → sub_type u = Some url →
  (within_limits cs →
   validateTemplateComponents cs
   = Thrown (IncompatibleButtonTypes quick_reply_with_others))
  ∧ (¬ within_limits cs →
     ∃ st, button_limit st < button_count st cs
           ∧ validateTemplateComponents cs = Thrown (TooManyButtons st))
  ∧ validateTemplateComponents cs ≠ Thrown DuplicateButtonIndex.
Proof.
  intros Hq Hqb Hqs Hu Hub Hus.
  pose proof (button_count_pos cs q quick_reply Hq Hqb Hqs) as Hnq.
  pose proof (button_count_pos cs u url Hu Hub Hus) as Hnu.
  destruct (button_count_scenario cs) as [[Hlim _] | (st & Hst & Hthrown)].
  - assert (validateTemplateComponents cs
            = Thrown (IncompatibleButtonTypes quick_reply_with_others)) as Hres.
    { apply validateTemplateComponents_button_error. button_cases cs.
      pose proof (Hlim quick_reply). pose proof (Hlim phone_number).
      pose proof (Hlim url). pose proof (Hlim copy_code). simpl in *.
      repeat (case_decide; try lia); tauto. }
    split_and!; [done | tauto | by rewrite Hres].
  - apply validateTemplateComponents_button_error in Hthrown.
    split_and!.
    + intros Hlim. specialize (Hlim st). lia.
    + intros _. by exists st.
    + rewrite Hthrown. by destruct st.
Qed.

(** C4, as the code has it. The button checks run before the parameter check. For
    a list with a non-button component without parameters: an error of
    the button checks is the error reported; in particular more than 10
    quick_reply buttons give TooManyButtons; EmptyComponentParameters is
    reported when the button components pass the button checks. *)
Theorem button_checks_precede_parameter_check (cs : list TemplateComponent)
  (c : TemplateComponent) :
  c ∈ cs → component_type c ≠ button → lacks_parameters c = true →
  (∀ msg, validateButtonComponents (buttons_of cs) = Thrown msg →
          validateTemplateComponents cs = Thrown msg)
  ∧ (10 < button_count quick_reply cs →
     validateTemplateComponents cs = Thrown (TooManyButtons quick_reply))
  ∧ (validateButtonComponents (buttons_of cs) = Returned () →
     ∃ t, t ≠ button
          ∧ validateTemplateComponents cs = Thrown (EmptyComponentParameters t)).
Proof.
  intros Hin Hc Hl. split_and!.
  - apply validateTemplateComponents_button_error.
  - intros Hq. apply validateTemplateComponents_button_error.
    button_cases cs. by rewrite decide_True.
  - intros Hok. rewrite (validateTemplateComponents_buttons_pass cs Hok).
    by apply (requireParameters_missing cs c).
Qed.

(** C10. The uniqueness checks compare the optional values as they are.
    For button components that pass the limit and exclusivity checks:
    two or more of them, all without an index, fail with
    DuplicateButtonIndex; with distinct indices, two of them without a
    first text parameter fail with DuplicateButtonText. *)
Theorem absent_index_or_text_is_a_duplicate (cs : list TemplateComponent) :
  within_limits cs → compatible cs →
  (2 ≤ length (buttons_of cs) →
   (∀ b, b ∈ buttons_of cs → index b = None) →
   validateTemplateComponents cs = Thrown DuplicateButtonIndex)
  ∧ (NoDup (index <$> buttons_of cs) →
     ∀ (i j : nat) (b1 b2 : TemplateComponent),
       i ≠ j →
       buttons_of cs !! i = Some b1 → buttons_of cs !! j = Some b2 →
       first_text b1 = None → first_text b2 = None →
       validateTemplateComponents cs = Thrown DuplicateButtonText).
Proof.
  intros Hlim [Hcq Hcc].
  pose proof (Hlim quick_reply) as Hq. pose proof (Hlim phone_number) as Hp.
  pose proof (Hlim url) as Hu. pose proof (Hlim copy_code) as Hc.
  simpl in Hq, Hp, Hu, Hc. split.
  - intros Hlen Hnone. apply validateTemplateComponents_button_error.
    assert (¬ NoDup (index <$> buttons_of cs)) as Hdup.
    { destruct (buttons_of cs) as [| b1 [| b2 bs]] eqn:Hbs;
        [simpl in Hlen; lia | simpl in Hlen; lia |].
      rewrite !fmap_cons, (Hnone b1), (Hnone b2) by repeat constructor.
      rewrite NoDup_cons. intros [Hnot _]. apply Hnot. constructor. }
    button_cases cs. repeat (case_decide; try lia); tauto.
  - intros Hidx i j b1 b2 Hij H1 H2 Ht1 Ht2.
    apply validateTemplateComponents_button_error.
    assert (¬ NoDup (first_text <$> buttons_of cs)) as Hdup.
    { intros Hnd. apply Hij.
      apply (NoDup_lookup (first_text <$> buttons_of cs) i j None Hnd).
      - by rewrite list_lookup_fmap, H1, <- Ht1.
      - by rewrite list_lookup_fmap, H2, <- Ht2. }
    button_cases cs. repeat (case_decide; try lia); tauto.
Qed.

Lemma button_limits_witness :
  (∃ st, button_limit st < button_count st (body_with_quick_replies 11)
         ∧ validateTemplateComponents (body_with_quick_replies 11)
           = Thrown (TooManyButtons st))
  ∧ validateTemplateComponents (body_with_quick_replies 10) = Returned ().
Proof.
  split.
  - apply (proj1 (button_limits (body_with_quick_replies 11))).
    exists quick_reply. vm_compute. lia.
  - apply (proj2 (button_limits (body_with_quick_replies 10)));
      try reflexivity; compute_done.
Defined.

Lemma button_exclusivity_witness :
  (∃ e, validateTemplateComponents scenario_B = Thrown (IncompatibleButtonTypes e))
  ∧ validateTemplateComponents url_and_phone = Returned ().
Proof.
  split.
  - apply (proj1 (button_exclusivity scenario_B ltac:(intros []; vm_compute; lia))).
    left. vm_compute. lia.
  - apply (proj2 (button_exclusivity url_and_phone ltac:(intros []; vm_compute; lia)));
      try reflexivity; compute_done.
Defined.

(** C1 does not hold as stated: scenario B fails with IncompatibleButtonTypes,
    not with DuplicateButtonIndex. *)
Lemma scenario_B_incompatible_not_duplicate :
  validateTemplateComponents scenario_B
  = Thrown (IncompatibleButtonTypes quick_reply_with_others)
  ∧ validateTemplateComponents scenario_B ≠ Thrown DuplicateButtonIndex.
Proof. split; [by vm_compute | by vm_compute]. Qed.

Lemma quick_reply_with_url_rejected_witness :
  validateTemplateComponents scenario_B
  = Thrown (IncompatibleButtonTypes quick_reply_with_others).
Proof.
  apply (quick_reply_with_url_rejected scenario_B
           (createQuickReplyButtonComponent 0 "Yes")
           (createUrlButtonComponent 0 "https://example.com/track")).
  - unfold scenario_B. repeat constructor.
  - reflexivity.
  - reflexivity.
  - unfold scenario_B. repeat constructor.
  - reflexivity.
  - reflexivity.
  - intros []; vm_compute; lia.
Defined.

(** C4 does not hold as stated: with a body component without parameters and
    11 quick_reply buttons the error is TooManyButtons, not
    EmptyComponentParameters. *)
Lemma empty_body_and_eleven_quick_replies :
  validateTemplateComponents (empty_body_with_quick_replies 11)
  = Thrown (TooManyButtons quick_reply)
  ∧ ∀ t, validateTemplateComponents (empty_body_with_quick_replies 11)
         ≠ Thrown (EmptyComponentParameters t).
Proof. split; [by vm_compute | by intros []; vm_compute]. Qed.

Lemma button_checks_precede_parameter_check_witness :
  validateTemplateComponents (empty_body_with_quick_replies 11)
  = Thrown (TooManyButtons quick_reply)
  ∧ ∃ t, t ≠ button
         ∧ validateTemplateComponents (empty_body_with_quick_replies 10)
           = Thrown (EmptyComponentParameters t).
Proof.
  split.
  - apply (button_checks_precede_parameter_check
             (empty_body_with_quick_replies 11) (createBodyComponent [])).
    + unfold empty_body_with_quick_replies. constructor.
    + discriminate.
    + reflexivity.
    + vm_compute. lia.
  - apply (button_checks_precede_parameter_check
             (empty_body_with_quick_replies 10) (createBodyComponent [])).
    + unfold empty_body_with_quick_replies. constructor.
    + discriminate.
    + reflexivity.
    + by vm_compute.
Defined.

Lemma absent_index_or_text_is_a_duplicate_witness :
  validateTemplateComponents buttons_without_index = Thrown DuplicateButtonIndex
  ∧ validateTemplateComponents buttons_without_text = Thrown DuplicateButtonText.
Proof.
  split.
  - apply (absent_index_or_text_is_a_duplicate buttons_without_index).
    + intros []; vm_compute; lia.
    + split; vm_compute; lia.
    + vm_compute. lia.
    + intros b Hb. vm_compute in Hb.
      apply elem_of_cons in Hb as [-> | Hb]; [done |].
      apply elem_of_cons in Hb as [-> | Hb]; [done |].
      by apply elem_of_nil in Hb.
  - apply (proj2 (absent_index_or_text_is_a_duplicate buttons_without_text
                    ltac:(intros []; vm_compute; lia)
                    ltac:(split; vm_compute; lia))
             ltac:(compute_done) 0 1 _ _ ltac:(lia) eq_refl eq_refl);
      reflexivity.
Defined.

(** ** Claims on sending *)

(** C3 does not hold as stated: a string of ten digits, none of them zero,
    is rejected. *)
Lemma ten_digit_number_rejected :
  String.length "4155552671" = 10
  ∧ forallb nonzero_digit (list_ascii_of_string "4155552671") = true
  ∧ validatePhoneNumber "4155552671" = false.
Proof. by vm_compute. Qed.

(** C3, as the code has it. The phone-number predicate accepts exactly the strings
    made of a first segment of 1 to 4 digits and a second segment of 10
    digits, each segment starting with a digit other than zero (so 11 to
    14 digits in all). A sender that fails it makes [sendMessage] and
    [sendTemplateMessage] throw an error that names the sender, and, the
    sender passing, a recipient that fails it an error that names the
    recipient; no request is issued. *)
Theorem phone_number_validation (config : SendZenConfig)
  (httpClient : Request → outcome ApiResponse)
  (m : Message.WhatsAppMessage) (p : TemplateMessagePayload)
  (o : option RequestOptions) (net : list Request) :
  (∀ s, validatePhoneNumber s = true ↔ phone_number_shape s)
  ∧ (∀ s, validatePhoneNumber s = true → 11 ≤ String.length s ≤ 14)
  ∧ (validatePhoneNumber (Message.from m) = false →
     sendMessage httpClient m o net
     = (Thrown (InvalidSender (Message.from m)), net))
  ∧ (validatePhoneNumber (Message.from m) = true →
     validatePhoneNumber (Message.to m) = false →
     sendMessage httpClient m o net
     = (Thrown (InvalidRecipient (Message.to m)), net))
  ∧ (validatePhoneNumber (config_from config) = false →
     sendTemplateMessage config httpClient p net
     = (Thrown (InvalidSender (config_from config)), net))
  ∧ (validatePhoneNumber (config_from config) = true →
     validatePhoneNumber (payload_to p) = false →
     sendTemplateMessage config httpClient p net
     = (Thrown (InvalidRecipient (payload_to p)), net)).
Proof.
  split_and!.
  - apply validatePhoneNumber_shape.
  - apply validatePhoneNumber_length.
  - apply sendMessage_invalid_from.
  - apply sendMessage_invalid_to.
  - intros H. unfold sendTemplateMessage, getFromNumber. by rewrite H.
  - intros H1 H2. unfold sendTemplateMessage, getFromNumber. by rewrite H1, H2.
Qed.

Lemma phone_number_validation_witness :
  phone_number_shape "14155552671"
  ∧ sendMessage queueing_client (text_message "4155550100" "14155552671") None []
    = (Thrown (InvalidSender "4155550100"), [])
  ∧ sendMessage queueing_client (text_message "14155550100" "+14155552671") None []
    = (Thrown (InvalidRecipient "+14155552671"), [])
  ∧ sendTemplateMessage example_config queueing_client
      (template_payload "0014155552671" "en_US") []
    = (Thrown (InvalidRecipient "0014155552671"), []).
Proof.
  pose proof (phone_number_validation example_config queueing_client
                (text_message "4155550100" "14155552671")
                (template_payload "0014155552671" "en_US") None [])
    as (Hshape & _ & Hfrom & _ & _ & Htemplate).
  pose proof (phone_number_validation example_config queueing_client
                (text_message "14155550100" "+14155552671")
                (template_payload "0014155552671" "en_US") None [])
    as (_ & _ & _ & Hto & _ & _).
  split_and!.
  - apply Hshape. reflexivity.
  - apply Hfrom. reflexivity.
  - apply Hto; reflexivity.
  - apply Htemplate; reflexivity.
Defined.

(** C7 does not hold as stated: with a sender that is not a
    well-formed number, a template message with the rejected language
    code ["en-US"] fails with the error that names the sender, not the
    language code. *)
Lemma rejected_language_code_behind_malformed_sender :
  validateLanguageCode "en-US" = false
  ∧ sendTemplateMessage
      {| apiKey := "key"; config_from := "1234567890"; config_timeout := None |}
      queueing_client (template_payload "14155552671" "en-US") []
    = (Thrown (InvalidSender "1234567890"), [])
  ∧ InvalidSender "1234567890" ≠ InvalidLanguageCode "en-US".
Proof. split_and!; [reflexivity | reflexivity | discriminate]. Qed.

(** C7, as the code has it. The language-code validator accepts exactly
    two lowercase letters, an underscore and two uppercase letters. A
    template message with a rejected language code is not sent: the call
    throws before any request. The sender and the recipient are checked
    first: when both pass, the error names the language code; when the
    sender fails, it names the sender; when the sender passes and the
    recipient fails, it names the recipient. *)
Theorem language_code_validation (config : SendZenConfig)
  (httpClient : Request → outcome ApiResponse)
  (p : TemplateMessagePayload) (net : list Request) :
  (∀ s, validateLanguageCode s = true ↔ language_code_shape s)
  ∧ validateLanguageCode "en_US" = true
  ∧ validateLanguageCode "es_ES" = true
  ∧ validateLanguageCode "english" = false
  ∧ validateLanguageCode "en-US" = false
  ∧ validateLanguageCode "EN_us" = false
  ∧ (validateLanguageCode (langCode p) = false →
     (∃ msg, sendTemplateMessage config httpClient p net = (Thrown msg, net))
     ∧ (validatePhoneNumber (config_from config) = true →
        validatePhoneNumber (payload_to p) = true →
        sendTemplateMessage config httpClient p net
        = (Thrown (InvalidLanguageCode (langCode p)), net))
     ∧ (validatePhoneNumber (config_from config) = false →
        sendTemplateMessage config httpClient p net
        = (Thrown (InvalidSender (config_from config)), net))
     ∧ (validatePhoneNumber (config_from config) = true →
        validatePhoneNumber (payload_to p) = false →
        sendTemplateMessage config httpClient p net
        = (Thrown (InvalidRecipient (payload_to p)), net))).
Proof.
  split_and!; try reflexivity.
  - apply validateLanguageCode_shape.
  - intros Hlang. unfold sendTemplateMessage, getFromNumber.
    split; [| split; [| split]].
    + destruct (validatePhoneNumber (config_from config)); simpl; [| by eexists].
      destruct (validatePhoneNumber (payload_to p)); simpl; [| by eexists].
      rewrite Hlang. simpl. by eexists.
    + intros H1 H2. by rewrite H1, H2, Hlang.
    + intros H1. by rewrite H1.
    + intros H1 H2. by rewrite H1, H2.
Qed.

Lemma language_code_validation_witness :
  language_code_shape "en_US"
  ∧ sendTemplateMessage example_config queueing_client
      (template_payload "14155552671" "en-US") []
    = (Thrown (InvalidLanguageCode "en-US"), []).
Proof.
  pose proof (language_code_validation example_config queueing_client
                (template_payload "14155552671" "en-US") [])
    as (Hshape & _ & _ & _ & _ & _ & Hsend).
  split.
  - apply Hshape. reflexivity.
  - apply Hsend; reflexivity.
Defined.

(** C2 does not hold as stated: an image message with both a link and an id
    is formatted and sent, and carries the link. *)
Lemma both_locators_accepted :
  sendMessage queueing_client
    (image_message (Some "https://example.com/a.png") (Some "media-1")) None []
  = (let r := post_request
       (Formatted (JsObject
          [ ("from", JsString "14155550100");
            ("To", JsString "14155552671");
            ("type", JsString "image");
            ("image", JsObject [ ("caption", JsUndefined);
                                 ("link", JsString "https://example.com/a.png") ]) ]))
       None in
     (queueing_client r, [r])).
Proof. by vm_compute. Qed.

(** C2, as the code has it. For every media message type, between well-formed
    numbers: a non-empty link is emitted, alone, whether or not an id
    is given too; without one, a non-empty id is emitted, alone; with
    neither (absent or empty) the call throws MissingContentLocator and
    no request is issued. *)
Theorem media_locator_resolution (httpClient : Request → outcome ApiResponse)
  (m : Message.WhatsAppMessage) (k : MediaKind)
  (o : option RequestOptions) (net : list Request) :
  media_kind (Message.content m) = Some k →
  validatePhoneNumber (Message.from m) = true →
  validatePhoneNumber (Message.to m) = true →
  (truthy (locator_link (Message.content m)) = true →
   ∃ w obj,
     sendMessage httpClient m o net
     = (httpClient (post_request (Formatted (JsObject w)) o),
        (net ++ [post_request (Formatted (JsObject w)) o])%list)
     ∧ media_object (Message.type m) w = Some obj
     ∧ get_prop "link" obj = Some (of_optional (locator_link (Message.content m)))
     ∧ get_prop "id" obj = None)
  ∧ (truthy (locator_link (Message.content m)) = false →
     truthy (locator_id (Message.content m)) = true →
     ∃ w obj,
       sendMessage httpClient m o net
       = (httpClient (post_request (Formatted (JsObject w)) o),
          (net ++ [post_request (Formatted (JsObject w)) o])%list)
       ∧ media_object (Message.type m) w = Some obj
       ∧ get_prop "id" obj = Some (of_optional (locator_id (Message.content m)))
       ∧ get_prop "link" obj = None)
  ∧ (truthy (locator_link (Message.content m)) = false →
     truthy (locator_id (Message.content m)) = false →
     sendMessage httpClient m o net = (Thrown (MissingContentLocator k), net)).
Proof.
  intros Hk Hfrom Hto. rewrite (sendMessage_valid httpClient m o net Hfrom Hto).
  destruct m as [f t c]. unfold formatMessage, Message.type. simpl in *.
  destruct c as [? | i | d | v | a | ?]; simpl in *; simplify_eq;
    (split_and!; [intros Hl; rewrite Hl | intros Hl Hi; rewrite Hl, Hi ..]);
    first [done | by eexists _, _].
Qed.

Lemma media_locator_resolution_witness :
  sendMessage queueing_client (image_message None None) None []
  = (Thrown (MissingContentLocator Image), [])
  ∧ sendMessage queueing_client (image_message (Some "") None) None []
    = (Thrown (MissingContentLocator Image), [])
  ∧ (∃ w obj,
       sendMessage queueing_client
         (image_message (Some "https://example.com/a.png") (Some "media-1")) None []
       = (queueing_client (post_request (Formatted (JsObject w)) None),
          [post_request (Formatted (JsObject w)) None])
       ∧ media_object "image" w = Some obj
       ∧ get_prop "link" obj = Some (JsString "https://example.com/a.png")
       ∧ get_prop "id" obj = None)
  ∧ (∃ w obj,
       sendMessage queueing_client (image_message None (Some "media-1")) None []
       = (queueing_client (post_request (Formatted (JsObject w)) None),
          [post_request (Formatted (JsObject w)) None])
       ∧ media_object "image" w = Some obj
       ∧ get_prop "id" obj = Some (JsString "media-1")
       ∧ get_prop "link" obj = None).
Proof.
  split_and!.
  - apply (media_locator_resolution queueing_client (image_message None None)
             Image None []); reflexivity.
  - apply (media_locator_resolution queueing_client (image_message (Some "") None)
             Image None []); reflexivity.
  - apply (media_locator_resolution queueing_client
             (image_message (Some "https://example.com/a.png") (Some "media-1"))
             Image None []); reflexivity.
  - apply (media_locator_resolution queueing_client
             (image_message None (Some "media-1")) Image None []); reflexivity.
Defined.

(** C8. The text message of scenario A is posted with exactly the wire
    body of the specification: the sender under [from], the recipient
    under [To], the preview flag as given, and [false] when it is
    omitted. *)
Theorem text_message_wire_body (httpClient : Request → outcome ApiResponse)
  (key : string) (t : option Z) (o : option RequestOptions) (net : list Request) :
  let config :=
    {| apiKey := key; config_from := "14155550100"; config_timeout := t |} in
  let wire (preview : bool) :=
    post_request
      (Formatted (JsObject
         [ ("from", JsString "14155550100");
           ("To", JsString "14155552671");
           ("type", JsString "text");
           ("text", JsObject [ ("body", JsString "Hello");
                               ("preview_url", JsBoolean preview) ]) ]))
      o in
  sendTextMessage config httpClient "14155552671" "Hello" (Some true) o net
  = (httpClient (wire true), (net ++ [wire true])%list)
  ∧ sendTextMessage config httpClient "14155552671" "Hello" None o net
    = (httpClient (wire false), (net ++ [wire false])%list)
  ∧ sendMessage httpClient (text_message "14155550100" "14155552671") o net
    = (httpClient (wire false), (net ++ [wire false])%list).
Proof.
  intros config wire. unfold sendTextMessage, getFromNumber, config.
  split_and!; by rewrite sendMessage_valid.
Qed.

Lemma validateInteractiveButtons_cases (buttons : list Button) :
  validateInteractiveButtons buttons =
    if decide (length buttons = 0) then
      Thrown (InteractiveButtonCountOutOfRange false)
    else if decide (3 < length buttons) then
      Thrown (InteractiveButtonCountOutOfRange true)
    else if decide (NoDup (id <$> buttons)) then
      if decide (NoDup (title <$> buttons)) then Returned ()
      else Thrown DuplicateButtonTitle
    else Thrown DuplicateButtonId.
Proof.
  unfold validateInteractiveButtons. cbv zeta.
  repeat (case_decide; try done); rewrite ?Set_size_NoDup in *; tauto.
Qed.

Lemma sendInteractiveMessage_invalid (config : SendZenConfig)
  (httpClient : Request → outcome ApiResponse) (recipient bodyText : string)
  (buttons : list Button) (headerText footerText : option string)
  (o : option RequestOptions) (net : list Request) (msg : string) :
  validateInteractiveButtons buttons = Thrown msg →
  sendInteractiveMessage config httpClient recipient bodyText buttons
    headerText footerText o net = (Thrown msg, net).
Proof.
  intros H. unfold sendInteractiveMessage, mbind, Service_bind, pure_call.
  by rewrite H.
Qed.

(** C9. The buttons of an interactive message pass the validation
    exactly when there are 1 to 3 of them, with pairwise distinct ids
    and pairwise distinct titles. Otherwise [sendInteractiveMessage]
    throws, without issuing a request: the count error for no button or
    more than 3, else the duplicate-id error, else the duplicate-title
    error. *)
Theorem interactive_buttons_validation (config : SendZenConfig)
  (httpClient : Request → outcome ApiResponse) (recipient bodyText : string)
  (buttons : list Button) (headerText footerText : option string)
  (o : option RequestOptions) (net : list Request) :
  let send :=
    sendInteractiveMessage config httpClient recipient bodyText buttons
      headerText footerText o net in
  (validateInteractiveButtons buttons = Returned ()
   ↔ 1 ≤ length buttons ≤ 3
     ∧ NoDup (id <$> buttons) ∧ NoDup (title <$> buttons))
  ∧ (length buttons = 0 →
     send = (Thrown (InteractiveButtonCountOutOfRange false), net))
  ∧ (3 < length buttons →
     send = (Thrown (InteractiveButtonCountOutOfRange true), net))
  ∧ (1 ≤ length buttons ≤ 3 → ¬ NoDup (id <$> buttons) →
     send = (Thrown DuplicateButtonId, net))
  ∧ (1 ≤ length buttons ≤ 3 → NoDup (id <$> buttons) →
     ¬ NoDup (title <$> buttons) →
     send = (Thrown DuplicateButtonTitle, net)).
Proof.
  intros send. unfold send. split_and!.
  - rewrite validateInteractiveButtons_cases.
    split.
    + intros Hret. repeat case_decide; try done. split_and!; [lia | lia | done | done].
    + intros (Hlen & Hid & Htitle). repeat (case_decide; try lia); done.
  - intros Hlen. apply sendInteractiveMessage_invalid.
    rewrite validateInteractiveButtons_cases. by rewrite decide_True.
  - intros Hlen. apply sendInteractiveMessage_invalid.
    rewrite validateInteractiveButtons_cases.
    repeat (case_decide; try lia); done.
  - intros Hlen Hid. apply sendInteractiveMessage_invalid.
    rewrite validateInteractiveButtons_cases.
    repeat (case_decide; try lia); done.
  - intros Hlen Hid Htitle. apply sendInteractiveMessage_invalid.
    rewrite validateInteractiveButtons_cases.
    repeat (case_decide; try lia); done.
Qed.

Lemma interactive_buttons_validation_witness :
  validateInteractiveButtons
    [ {| id := "yes"; title := "Yes" |}; {| id := "no"; title := "No" |} ]
  = Returned ()
  ∧ sendInteractiveMessage example_config queueing_client "14155552671" "Proceed?"
      [] None None None []
    = (Thrown (InteractiveButtonCountOutOfRange false), [])
  ∧ sendInteractiveMessage example_config queueing_client "14155552671" "Proceed?"
      [ {| id := "a"; title := "Yes" |}; {| id := "a"; title := "No" |} ]
      None None None []
    = (Thrown DuplicateButtonId, [])
  ∧ sendInteractiveMessage example_config queueing_client "14155552671" "Proceed?"
      [ {| id := "a"; title := "Yes" |}; {| id := "b"; title := "Yes" |} ]
      None None None []
    = (Thrown DuplicateButtonTitle, []).
Proof.
  split_and!.
  - apply (interactive_buttons_validation example_config queueing_client
             "14155552671" "Proceed?" _ None None None []).
    split_and!; [simpl; lia | simpl; lia | compute_done | compute_done].
  - apply (interactive_buttons_validation example_config queueing_client
             "14155552671" "Proceed?" [] None None None []). reflexivity.
  - apply (interactive_buttons_validation example_config queueing_client
             "14155552671" "Proceed?" _ None None None []);
      [simpl; lia | compute_done].
  - apply (interactive_buttons_validation example_config queueing_client
             "14155552671" "Proceed?" _ None None None []);
      [simpl; lia | compute_done | compute_done].
Defined.

(** * Further properties of the code *)

(** ** [sendMessage] and the typed front ends *)

Section SendingMore.
Variable config : SendZenConfig.
Variable httpClient : Request → outcome ApiResponse.

Lemma formatMessage_keys (m : Message.WhatsAppMessage) (w : list (string * JsValue)) :
  formatMessage m = Returned w →
  ∃ v, w = [ ("from", JsString (Message.from m));
             ("To", JsString (Message.to m));
             ("type", JsString (Message.type m));
             (Message.type m, v) ].
Proof.
  destruct m as [f t c]. unfold formatMessage, Message.type. simpl.
  destruct c as [? | i | d | v | a | ?]; simpl;
    repeat match goal with
      | |- context [truthy ?x] => destruct (truthy x)
      end; intros; simplify_eq; by eexists.
Qed.

Lemma formatMessage_error (m : Message.WhatsAppMessage) (msg : string) :
  formatMessage m = Thrown msg →
  ∃ k, media_kind (Message.content m) = Some k
       ∧ msg = MissingContentLocator k
       ∧ truthy (locator_link (Message.content m)) = false
       ∧ truthy (locator_id (Message.content m)) = false.
Proof.
  destruct m as [f t c]. unfold formatMessage. simpl.
  destruct c as [? | i | d | v | a | ?]; simpl; try done;
    repeat match goal with
      | |- context [truthy ?x] => destruct (truthy x) eqn:?
      end; intros; simplify_eq; by eexists.
Qed.


Lemma truthy_Some (s : string) : truthy (Some s) = true ↔ s ≠ "".
Proof.
  simpl. rewrite negb_true_iff. split.
  - intros H ->. by rewrite String.eqb_refl in H.
  - intros H. by apply String.eqb_neq.
Qed.

Lemma truthy_Some_true (s : string) : s ≠ "" → truthy (Some s) = true.
Proof. apply truthy_Some. Qed.

(** X1. A call of [sendMessage] either throws and leaves the log of
    requests as it was, or it has found sender and recipient well formed
    and the message formattable, and appends exactly one request, the
    POST of the formatted message to the endpoint [''], after the
    requests issued before. *)
Theorem sendMessage_one_request_or_none (m : Message.WhatsAppMessage)
  (o : option RequestOptions) (net : list Request) :
  (∃ msg, sendMessage httpClient m o net = (Thrown msg, net))
  ∨ (∃ w, validatePhoneNumber (Message.from m) = true
          ∧ validatePhoneNumber (Message.to m) = true
          ∧ formatMessage m = Returned w
          ∧ sendMessage httpClient m o net
            = (httpClient (post_request (Formatted (JsObject w)) o),
               (net ++ [post_request (Formatted (JsObject w)) o])%list)).
Proof.
  destruct (validatePhoneNumber (Message.from m)) eqn:Hfrom.
  - destruct (validatePhoneNumber (Message.to m)) eqn:Hto.
    + rewrite (sendMessage_valid httpClient m o net Hfrom Hto).
      destruct (formatMessage m) as [w | msg]; [right | left]; by eexists.
    + left. eexists. by apply sendMessage_invalid_to.
  - left. eexists. by apply sendMessage_invalid_from.
Qed.

(** X2. What [sendMessage] builds: a formatted message has exactly the
    four properties [from], [To], [type] and the one named after the
    type, in this order, the first three with the values of the message.
    Formatting fails for media messages only, with MissingContentLocator
    and only when neither locator is a non-empty string; text and
    interactive messages are always formatted. *)
Theorem formatted_message_shape (m : Message.WhatsAppMessage) :
  (∀ w, formatMessage m = Returned w →
        ∃ v, w = [ ("from", JsString (Message.from m));
                   ("To", JsString (Message.to m));
                   ("type", JsString (Message.type m));
                   (Message.type m, v) ])
  ∧ (∀ msg, formatMessage m = Thrown msg →
            ∃ k, media_kind (Message.content m) = Some k
                 ∧ msg = MissingContentLocator k
                 ∧ truthy (locator_link (Message.content m)) = false
                 ∧ truthy (locator_id (Message.content m)) = false)
  ∧ (media_kind (Message.content m) = None →
     ∃ w, formatMessage m = Returned w).
Proof.
  split_and!.
  - apply formatMessage_keys.
  - apply formatMessage_error.
  - intros Hk. destruct (formatMessage m) as [w | msg] eqn:Hf; [by eexists |].
    apply formatMessage_error in Hf as (k & Hk' & _). congruence.
Qed.

Lemma formatted_message_shape_witness :
  (∃ v, [ ("from", JsString "14155550100"); ("To", JsString "14155552671");
          ("type", JsString "text");
          ("text", JsObject [ ("body", JsString "Hello");
                              ("preview_url", JsBoolean false) ]) ]
        = [ ("from", JsString "14155550100"); ("To", JsString "14155552671");
            ("type", JsString "text"); ("text", v) ])
  ∧ (∃ k, media_kind (Message.content (image_message None None)) = Some k
          ∧ MissingContentLocator Image = MissingContentLocator k
          ∧ truthy None = false ∧ truthy None = false)
  ∧ ∃ w, formatMessage (text_message "14155550100" "14155552671") = Returned w.
Proof.
  split_and!.
  - apply (proj1 (formatted_message_shape
                    (text_message "14155550100" "14155552671"))). reflexivity.
  - apply (proj1 (proj2 (formatted_message_shape (image_message None None)))).
    reflexivity.
  - apply (proj2 (proj2 (formatted_message_shape
                           (text_message "14155550100" "14155552671")))).
    reflexivity.
Defined.

Ltac media_front_end :=
  intros Hfrom Hto; cbv zeta;
  unfold sendImageMessage, sendImageMessageWithId, sendDocumentMessage,
    sendDocumentMessageWithId, sendVideoMessage, sendVideoMessageWithId,
    sendAudioMessage, sendAudioMessageWithId, getFromNumber;
  split_and!; intros;
    (rewrite sendMessage_valid by done); unfold formatMessage; cbn [Message.content
      Message.image_link Message.image_id Message.image_caption
      Message.document_link Message.document_id Message.document_filename
      Message.document_caption Message.video_link Message.video_id
      Message.video_caption Message.audio_link Message.audio_id];
    rewrite ?truthy_Some_true by done; done.

(** X3. The two image front ends, between well-formed numbers: a
    non-empty URL (media id) is posted as [image.link] ([image.id]) next
    to the caption, and nothing else is sent; an empty URL or media id
    throws MissingContentLocator and no request is issued. *)
Theorem image_front_ends (recipient imageUrl mediaId : string)
  (caption : option string) (o : option RequestOptions) (net : list Request) :
  validatePhoneNumber (config_from config) = true →
  validatePhoneNumber recipient = true →
  let wire (locator value : string) :=
    post_request
      (Formatted (JsObject
         [ ("from", JsString (config_from config));
           ("To", JsString recipient);
           ("type", JsString "image");
           ("image", JsObject [ ("caption", of_optional caption);
                                (locator, JsString value) ]) ]))
      o in
  (imageUrl ≠ "" →
   sendImageMessage config httpClient recipient imageUrl caption o net
   = (httpClient (wire "link" imageUrl), (net ++ [wire "link" imageUrl])%list))
  ∧ (mediaId ≠ "" →
     sendImageMessageWithId config httpClient recipient mediaId caption o net
     = (httpClient (wire "id" mediaId), (net ++ [wire "id" mediaId])%list))
  ∧ sendImageMessage config httpClient recipient "" caption o net
    = (Thrown (MissingContentLocator Image), net)
  ∧ sendImageMessageWithId config httpClient recipient "" caption o net
    = (Thrown (MissingContentLocator Image), net).
Proof. media_front_end. Qed.

(** X4. The two document front ends, between well-formed numbers: a
    non-empty URL (media id) is posted as [document.link]
    ([document.id]) after the file name and the caption; an empty URL or
    media id throws MissingContentLocator and no request is issued. *)
Theorem document_front_ends (recipient documentUrl mediaId filename : string)
  (caption : option string) (o : option RequestOptions) (net : list Request) :
  validatePhoneNumber (config_from config) = true →
  validatePhoneNumber recipient = true →
  let wire (locator value : string) :=
    post_request
      (Formatted (JsObject
         [ ("from", JsString (config_from config));
           ("To", JsString recipient);
           ("type", JsString "document");
           ("document", JsObject [ ("filename", JsString filename);
                                   ("caption", of_optional caption);
                                   (locator, JsString value) ]) ]))
      o in
  (documentUrl ≠ "" →
   sendDocumentMessage config httpClient recipient documentUrl filename caption o net
   = (httpClient (wire "link" documentUrl),
      (net ++ [wire "link" documentUrl])%list))
  ∧ (mediaId ≠ "" →
     sendDocumentMessageWithId config httpClient recipient mediaId filename
       caption o net
     = (httpClient (wire "id" mediaId), (net ++ [wire "id" mediaId])%list))
  ∧ sendDocumentMessage config httpClient recipient "" filename caption o net
    = (Thrown (MissingContentLocator Document), net)
  ∧ sendDocumentMessageWithId config httpClient recipient "" filename caption o net
    = (Thrown (MissingContentLocator Document), net).
Proof. media_front_end. Qed.

(** X5. The two video front ends, between well-formed numbers: a
    non-empty URL (media id) is posted as [video.link] ([video.id])
    after the caption; an empty URL or media id throws
    MissingContentLocator and no request is issued. *)
Theorem video_front_ends (recipient videoUrl mediaId caption : string)
  (o : option RequestOptions) (net : list Request) :
  validatePhoneNumber (config_from config) = true →
  validatePhoneNumber recipient = true →
  let wire (locator value : string) :=
    post_request
      (Formatted (JsObject
         [ ("from", JsString (config_from config));
           ("To", JsString recipient);
           ("type", JsString "video");
           ("video", JsObject [ ("caption", JsString caption);
                                (locator, JsString value) ]) ]))
      o in
  (videoUrl ≠ "" →
   sendVideoMessage config httpClient recipient videoUrl caption o net
   = (httpClient (wire "link" videoUrl), (net ++ [wire "link" videoUrl])%list))
  ∧ (mediaId ≠ "" →
     sendVideoMessageWithId config httpClient recipient mediaId caption o net
     = (httpClient (wire "id" mediaId), (net ++ [wire "id" mediaId])%list))
  ∧ sendVideoMessage config httpClient recipient "" caption o net
    = (Thrown (MissingContentLocator Video), net)
  ∧ sendVideoMessageWithId config httpClient recipient "" caption o net
    = (Thrown (MissingContentLocator Video), net).
Proof. media_front_end. Qed.

(** X6. The two audio front ends, between well-formed numbers: a
    non-empty URL (media id) is posted as the only property of [audio];
    an empty URL or media id throws MissingContentLocator and no request
    is issued. *)
Theorem audio_front_ends (recipient audioUrl mediaId : string)
  (o : option RequestOptions) (net : list Request) :
  validatePhoneNumber (config_from config) = true →
  validatePhoneNumber recipient = true →
  let wire (locator value : string) :=
    post_request
      (Formatted (JsObject
         [ ("from", JsString (config_from config));
           ("To", JsString recipient);
           ("type", JsString "audio");
           ("audio", JsObject [ (locator, JsString value) ]) ]))
      o in
  (audioUrl ≠ "" →
   sendAudioMessage config httpClient recipient audioUrl o net
   = (httpClient (wire "link" audioUrl), (net ++ [wire "link" audioUrl])%list))
  ∧ (mediaId ≠ "" →
     sendAudioMessageWithId config httpClient recipient mediaId o net
     = (httpClient (wire "id" mediaId), (net ++ [wire "id" mediaId])%list))
  ∧ sendAudioMessage config httpClient recipient "" o net
    = (Thrown (MissingContentLocator Audio), net)
  ∧ sendAudioMessageWithId config httpClient recipient "" o net
    = (Thrown (MissingContentLocator Audio), net).
Proof. media_front_end. Qed.

End SendingMore.

Lemma image_front_ends_witness :
  sendImageMessage example_config queueing_client "14155552671"
    "https://example.com/a.png" (Some "A picture") None []
  = (let r := post_request
       (Formatted (JsObject
          [ ("from", JsString "14155550100");
            ("To", JsString "14155552671");
            ("type", JsString "image");
            ("image", JsObject [ ("caption", JsString "A picture");
                                 ("link", JsString "https://example.com/a.png") ]) ]))
       None in
     (queueing_client r, [r]))
  ∧ sendImageMessageWithId example_config queueing_client "14155552671" ""
      None None []
    = (Thrown (MissingContentLocator Image), []).
Proof.
  split.
  - apply (image_front_ends example_config queueing_client "14155552671"
             "https://example.com/a.png" "" (Some "A picture") None []);
      [reflexivity | reflexivity | discriminate].
  - apply (image_front_ends example_config queueing_client "14155552671"
             "" "" None None []); reflexivity.
Defined.

Lemma document_front_ends_witness :
  sendDocumentMessageWithId example_config queueing_client "14155552671"
    "media-7" "invoice.pdf" None None []
  = (let r := post_request
       (Formatted (JsObject
          [ ("from", JsString "14155550100");
            ("To", JsString "14155552671");
            ("type", JsString "document");
            ("document", JsObject [ ("filename", JsString "invoice.pdf");
                                    ("caption", JsUndefined);
                                    ("id", JsString "media-7") ]) ]))
       None in
     (queueing_client r, [r]))
  ∧ sendDocumentMessage example_config queueing_client "14155552671" ""
      "invoice.pdf" None None []
    = (Thrown (MissingContentLocator Document), []).
Proof.
  split.
  - apply (document_front_ends example_config queueing_client "14155552671"
             "" "media-7" "invoice.pdf" None None []);
      [reflexivity | reflexivity | discriminate].
  - apply (document_front_ends example_config queueing_client "14155552671"
             "" "" "invoice.pdf" None None []); reflexivity.
Defined.

Lemma video_front_ends_witness :
  sendVideoMessage example_config queueing_client "14155552671"
    "https://example.com/v.mp4" "Watch" None []
  = (let r := post_request
       (Formatted (JsObject
          [ ("from", JsString "14155550100");
            ("To", JsString "14155552671");
            ("type", JsString "video");
            ("video", JsObject [ ("caption", JsString "Watch");
                                 ("link", JsString "https://example.com/v.mp4") ]) ]))
       None in
     (queueing_client r, [r]))
  ∧ sendVideoMessageWithId example_config queueing_client "14155552671" ""
      "Watch" None []
    = (Thrown (MissingContentLocator Video), []).
Proof.
  split.
  - apply (video_front_ends example_config queueing_client "14155552671"
             "https://example.com/v.mp4" "" "Watch" None []);
      [reflexivity | reflexivity | discriminate].
  - apply (video_front_ends example_config queueing_client "14155552671"
             "" "" "Watch" None []); reflexivity.
Defined.

Lemma audio_front_ends_witness :
  sendAudioMessage example_config queueing_client "14155552671"
    "https://example.com/a.ogg" None []
  = (let r := post_request
       (Formatted (JsObject
          [ ("from", JsString "14155550100");
            ("To", JsString "14155552671");
            ("type", JsString "audio");
            ("audio", JsObject [ ("link", JsString "https://example.com/a.ogg") ]) ]))
       None in
     (queueing_client r, [r]))
  ∧ sendAudioMessageWithId example_config queueing_client "14155552671" "" None []
    = (Thrown (MissingContentLocator Audio), []).
Proof.
  split.
  - apply (audio_front_ends example_config queueing_client "14155552671"
             "https://example.com/a.ogg" "" None []);
      [reflexivity | reflexivity | discriminate].
  - apply (audio_front_ends example_config queueing_client "14155552671"
             "" "" None []); reflexivity.
Defined.

(** ** Interactive messages *)

Section InteractiveMore.
Variable config : SendZenConfig.
Variable httpClient : Request → outcome ApiResponse.

Lemma decode_reply_buttons (buttons : list Button) :
  mapM decode_reply_button (reply_button <$> buttons) = Some buttons.
Proof.
  induction buttons as [| [i t] bs IH]; [done |].
  rewrite fmap_cons. cbn [mapM]. rewrite IH. done.
Qed.

Lemma interactive_with_header_invalid (hdr : JsValue) (recipient bodyText : string)
  (buttons : list Button) (footerText : option string)
  (o : option RequestOptions) (net : list Request) (msg : string) :
  validateInteractiveButtons buttons = Thrown msg →
  interactive_with_header config httpClient hdr recipient bodyText buttons
    footerText o net = (Thrown msg, net).
Proof.
  intros H. unfold interactive_with_header, mbind, Service_bind, pure_call.
  by rewrite H.
Qed.

Lemma interactive_with_header_valid (hdr : JsValue) (recipient bodyText : string)
  (buttons : list Button) (footerText : option string)
  (o : option RequestOptions) (net : list Request) :
  validateInteractiveButtons buttons = Returned () →
  interactive_with_header config httpClient hdr recipient bodyText buttons
    footerText o net
  = sendMessage httpClient
      {| Message.from := config_from config;
         Message.to := recipient;
         Message.content := Message.interactive (JsObject
           ([ ("type", JsString "button");
              ("header", hdr);
              ("body", JsObject [ ("text", JsString bodyText) ]);
              ("action", JsObject
                 [ ("buttons", JsArray (reply_button <$> buttons)) ]) ]
            ++ optional_text_prop "footer"
                 (JsObject [ ("text", of_optional footerText) ]) footerText)%list) |}
      o net.
Proof.
  intros H. unfold interactive_with_header, mbind, Service_bind, pure_call.
  rewrite H. unfold optional_text_prop, getFromNumber.
  by destruct (truthy footerText).
Qed.

Lemma sendInteractiveMessageWith_eq (v : HeaderVariant) :
  sendInteractiveMessageWith config httpClient v
  = λ recipient bodyText buttons value footerText o,
      interactive_with_header config httpClient (variant_header v value)
        recipient bodyText buttons footerText o.
Proof. by destruct v. Qed.

Lemma sendInteractiveMessage_valid (recipient bodyText : string)
  (buttons : list Button) (headerText footerText : option string)
  (o : option RequestOptions) (net : list Request) :
  validateInteractiveButtons buttons = Returned () →
  sendInteractiveMessage config httpClient recipient bodyText buttons
    headerText footerText o net
  = sendMessage httpClient
      {| Message.from := config_from config;
         Message.to := recipient;
         Message.content := Message.interactive (JsObject
           ([ ("type", JsString "button");
              ("body", JsObject [ ("text", JsString bodyText) ]);
              ("action", JsObject
                 [ ("buttons", JsArray (reply_button <$> buttons)) ]) ]
            ++ optional_text_prop "header"
                 (JsObject [ ("type", JsString "text");
                             ("text", of_optional headerText) ]) headerText
            ++ optional_text_prop "footer"
                 (JsObject [ ("text", of_optional footerText) ]) footerText)%list) |}
      o net.
Proof.
  intros H. unfold sendInteractiveMessage, mbind, Service_bind, pure_call.
  rewrite H. unfold optional_text_prop, getFromNumber.
  by destruct (truthy headerText), (truthy footerText).
Qed.

(** X7. The six interactive front ends with a media header check in
    this order: the buttons, the sender, the recipient. The first check
    that fails gives the error, and no request is issued; a list of
    buttons that fails is reported even when a number is malformed
    too. *)
Theorem interactive_header_check_order (v : HeaderVariant)
  (recipient bodyText : string) (buttons : list Button) (value : string)
  (footerText : option string) (o : option RequestOptions) (net : list Request) :
  let send :=
    sendInteractiveMessageWith config httpClient v recipient bodyText buttons
      value footerText o net in
  (∀ msg, validateInteractiveButtons buttons = Thrown msg →
          send = (Thrown msg, net))
  ∧ (validateInteractiveButtons buttons = Returned () →
     validatePhoneNumber (config_from config) = false →
     send = (Thrown (InvalidSender (config_from config)), net))
  ∧ (validateInteractiveButtons buttons = Returned () →
     validatePhoneNumber (config_from config) = true →
     validatePhoneNumber recipient = false →
     send = (Thrown (InvalidRecipient recipient), net)).
Proof.
  intros send. unfold send. rewrite sendInteractiveMessageWith_eq. split_and!.
  - intros msg H. by apply interactive_with_header_invalid.
  - intros H Hfrom. rewrite interactive_with_header_valid by done.
    by apply sendMessage_invalid_from.
  - intros H Hfrom Hto. rewrite interactive_with_header_valid by done.
    by apply sendMessage_invalid_to.
Qed.

(** X8. With valid buttons and well-formed numbers, each of the six
    interactive front ends with a media header posts one request whose
    [interactive] object has the properties [type], [header], [body],
    [action] and, for a non-empty footer text only, [footer]. The header
    carries the URL or media id as it was given: it is not checked, and
    an empty one is sent too. *)
Theorem interactive_header_wire (v : HeaderVariant)
  (recipient bodyText : string) (buttons : list Button) (value : string)
  (footerText : option string) (o : option RequestOptions) (net : list Request) :
  validateInteractiveButtons buttons = Returned () →
  validatePhoneNumber (config_from config) = true →
  validatePhoneNumber recipient = true →
  let r :=
    interactive_wire (config_from config) recipient
      ([ ("type", JsString "button");
         ("header", variant_header v value);
         ("body", JsObject [ ("text", JsString bodyText) ]);
         ("action", JsObject [ ("buttons", JsArray (reply_button <$> buttons)) ]) ]
       ++ optional_text_prop "footer"
            (JsObject [ ("text", of_optional footerText) ]) footerText)%list
      o in
  sendInteractiveMessageWith config httpClient v recipient bodyText buttons
    value footerText o net
  = (httpClient r, (net ++ [r])%list).
Proof.
  intros H Hfrom Hto. rewrite sendInteractiveMessageWith_eq.
  rewrite interactive_with_header_valid by done.
  by rewrite sendMessage_valid.
Qed.

(** X9. With valid buttons and well-formed numbers,
    [sendInteractiveMessage] posts one request whose [interactive]
    object has the properties [type], [body], [action], then [header]
    exactly when the header text is a non-empty string, then [footer]
    exactly when the footer text is a non-empty string. *)
Theorem interactive_plain_wire (recipient bodyText : string)
  (buttons : list Button) (headerText footerText : option string)
  (o : option RequestOptions) (net : list Request) :
  validateInteractiveButtons buttons = Returned () →
  validatePhoneNumber (config_from config) = true →
  validatePhoneNumber recipient = true →
  let r :=
    interactive_wire (config_from config) recipient
      ([ ("type", JsString "button");
         ("body", JsObject [ ("text", JsString bodyText) ]);
         ("action", JsObject [ ("buttons", JsArray (reply_button <$> buttons)) ]) ]
       ++ optional_text_prop "header"
            (JsObject [ ("type", JsString "text");
                        ("text", of_optional headerText) ]) headerText
       ++ optional_text_prop "footer"
            (JsObject [ ("text", of_optional footerText) ]) footerText)%list
      o in
  sendInteractiveMessage config httpClient recipient bodyText buttons
    headerText footerText o net
  = (httpClient r, (net ++ [r])%list).
Proof.
  intros H Hfrom Hto. rewrite sendInteractiveMessage_valid by done.
  by rewrite sendMessage_valid.
Qed.

(** X10. The buttons survive the trip: whenever one of the seven
    interactive front ends issues its request, reading the reply buttons
    back from [interactive.action.buttons] of that request gives the
    list of buttons of the call, in the same order. *)
Theorem interactive_buttons_round_trip (recipient bodyText : string)
  (buttons : list Button) (headerText footerText : option string)
  (o : option RequestOptions) (net : list Request) :
  validateInteractiveButtons buttons = Returned () →
  validatePhoneNumber (config_from config) = true →
  validatePhoneNumber recipient = true →
  (∃ r, sendInteractiveMessage config httpClient recipient bodyText buttons
          headerText footerText o net = (httpClient r, (net ++ [r])%list)
        ∧ sent_buttons r = Some buttons)
  ∧ (∀ v value,
       ∃ r, sendInteractiveMessageWith config httpClient v recipient bodyText
              buttons value footerText o net = (httpClient r, (net ++ [r])%list)
            ∧ sent_buttons r = Some buttons).
Proof.
  intros H Hfrom Hto. split.
  - eexists. split; [by apply interactive_plain_wire |].
    unfold sent_buttons, sent_interactive, interactive_wire, post_request,
      optional_text_prop. cbn -[mapM reply_button].
    destruct (truthy headerText), (truthy footerText); cbn -[mapM reply_button];
      apply decode_reply_buttons.
  - intros v value. eexists. split; [by apply interactive_header_wire |].
    unfold sent_buttons, sent_interactive, interactive_wire, post_request,
      optional_text_prop. cbn -[mapM reply_button].
    destruct (truthy footerText); cbn -[mapM reply_button];
      apply decode_reply_buttons.
Qed.

End InteractiveMore.

Lemma interactive_header_check_order_witness :
  sendInteractiveMessageWith example_config queueing_client ImageUrl
    "no-number" "Proceed?" [] "https://example.com/a.png" None None []
  = (Thrown (InteractiveButtonCountOutOfRange false), [])
  ∧ sendInteractiveMessageWith example_config queueing_client VideoMediaId
      "no-number" "Proceed?" yes_no_buttons "media-1" None None []
    = (Thrown (InvalidRecipient "no-number"), []).
Proof.
  split.
  - apply (interactive_header_check_order example_config queueing_client ImageUrl
             "no-number" "Proceed?" [] "https://example.com/a.png" None None []).
    reflexivity.
  - apply (interactive_header_check_order example_config queueing_client
             VideoMediaId "no-number" "Proceed?" yes_no_buttons "media-1"
             None None []); reflexivity.
Defined.

Lemma interactive_header_wire_witness :
  sendInteractiveMessageWith example_config queueing_client ImageUrl
    "14155552671" "Proceed?" yes_no_buttons "" (Some "Thanks") None []
  = (let r :=
       interactive_wire "14155550100" "14155552671"
         [ ("type", JsString "button");
           ("header", JsObject [ ("type", JsString "image");
                                 ("image", JsObject [ ("link", JsString "") ]) ]);
           ("body", JsObject [ ("text", JsString "Proceed?") ]);
           ("action", JsObject [ ("buttons", JsArray
              [ JsObject [ ("type", JsString "reply");
                           ("reply", JsObject [ ("id", JsString "yes");
                                                ("title", JsString "Yes") ]) ];
                JsObject [ ("type", JsString "reply");
                           ("reply", JsObject [ ("id", JsString "no");
                                                ("title", JsString "No") ]) ] ]) ]);
           ("footer", JsObject [ ("text", JsString "Thanks") ]) ]
         None in
     (queueing_client r, [r])).
Proof.
  apply (interactive_header_wire example_config queueing_client ImageUrl
           "14155552671" "Proceed?" yes_no_buttons "" (Some "Thanks") None []);
    reflexivity.
Defined.

Lemma interactive_plain_wire_witness :
  sendInteractiveMessage example_config queueing_client "14155552671" "Proceed?"
    yes_no_buttons (Some "") (Some "Thanks") None []
  = (let r :=
       interactive_wire "14155550100" "14155552671"
         [ ("type", JsString "button");
           ("body", JsObject [ ("text", JsString "Proceed?") ]);
           ("action", JsObject [ ("buttons", JsArray
              [ JsObject [ ("type", JsString "reply");
                           ("reply", JsObject [ ("id", JsString "yes");
                                                ("title", JsString "Yes") ]) ];
                JsObject [ ("type", JsString "reply");
                           ("reply", JsObject [ ("id", JsString "no");
                                                ("title", JsString "No") ]) ] ]) ]);
           ("footer", JsObject [ ("text", JsString "Thanks") ]) ]
         None in
     (queueing_client r, [r])).
Proof.
  apply (interactive_plain_wire example_config queueing_client "14155552671"
           "Proceed?" yes_no_buttons (Some "") (Some "Thanks") None []);
    reflexivity.
Defined.

Lemma interactive_buttons_round_trip_witness :
  (∃ r, sendInteractiveMessage example_config queueing_client "14155552671"
          "Proceed?" yes_no_buttons (Some "Order") None None []
        = (queueing_client r, [r])
        ∧ sent_buttons r = Some yes_no_buttons)
  ∧ ∃ r, sendInteractiveMessageWith example_config queueing_client DocumentUrl
           "14155552671" "Proceed?" yes_no_buttons
           "https://example.com/terms.pdf" None None []
         = (queueing_client r, [r])
         ∧ sent_buttons r = Some yes_no_buttons.
Proof.
  pose proof (interactive_buttons_round_trip example_config queueing_client
                "14155552671" "Proceed?" yes_no_buttons (Some "Order") None None []
                eq_refl eq_refl eq_refl) as [Hplain Hheader].
  split; [exact Hplain | exact (Hheader DocumentUrl "https://example.com/terms.pdf")].
Defined.

(** ** Template components: what the validation accepts *)

Lemma requireParameters_returned (cs : list TemplateComponent) :
  requireParameters cs = Returned () ↔ parameters_present cs.
Proof.
  split; [| apply requireParameters_present].
  unfold parameters_present. induction cs as [| c cs IH]; [constructor |].
  simpl. destruct (bool_decide (component_type c ≠ button)) eqn:Hb; simpl.
  - destruct (lacks_parameters c) eqn:Hl; [done |].
    intros H. constructor; [done | by apply IH].
  - intros H. constructor; [| by apply IH].
    intros Hc. by apply bool_decide_eq_false in Hb.
Qed.

Lemma validateTemplateComponents_accepts (cs : list TemplateComponent) :
  validateTemplateComponents cs = Returned ()
  ↔ within_limits cs ∧ compatible cs
    ∧ NoDup (index <$> buttons_of cs) ∧ NoDup (first_text <$> buttons_of cs)
    ∧ parameters_present cs.
Proof.
  rewrite validateTemplateComponents_eq, <- requireParameters_returned.
  unfold within_limits, compatible. button_cases cs. split.
  - repeat (case_decide; try done). intros Hreq. split_and!; try done; try lia.
    intros []; simpl; lia.
  - intros (Hlim & [Hcq Hcc] & Hidx & Htxt & Hreq).
    pose proof (Hlim quick_reply). pose proof (Hlim phone_number).
    pose proof (Hlim url). pose proof (Hlim copy_code). simpl in *.
    repeat (case_decide; try lia); try done; tauto.
Qed.

(** X11. The validation accepts a list of components exactly when: no
    button sub-type is over its limit (10 quick_reply, 1 of each other),
    quick_reply buttons are not mixed with others nor copy_code buttons
    with phone_number or url buttons, the indices of the button
    components are pairwise distinct, so are their first texts (absent
    ones included), and every other component has a parameter. *)
Theorem template_validation_accepts (cs : list TemplateComponent) :
  validateTemplateComponents cs = Returned ()
  ↔ within_limits cs ∧ compatible cs
    ∧ NoDup (index <$> buttons_of cs) ∧ NoDup (first_text <$> buttons_of cs)
    ∧ parameters_present cs.
Proof. apply validateTemplateComponents_accepts. Qed.

Lemma template_validation_accepts_witness :
  validateTemplateComponents url_and_phone = Returned ()
  ∧ within_limits (body_with_quick_replies 10).
Proof.
  split.
  - apply (template_validation_accepts url_and_phone). split_and!.
    + intros []; vm_compute; lia.
    + split; vm_compute; lia.
    + compute_done.
    + compute_done.
    + compute_done.
  - apply (template_validation_accepts (body_with_quick_replies 10)).
    reflexivity.
Defined.

(** X12. Whether a list of components is accepted does not depend on
    the order of the components. *)
Theorem template_validation_order_independent (cs cs' : list TemplateComponent) :
  cs ≡ₚ cs' →
  (validateTemplateComponents cs = Returned ()
   ↔ validateTemplateComponents cs' = Returned ()).
Proof.
  intros Hperm. rewrite !validateTemplateComponents_accepts.
  unfold within_limits, compatible, button_count, sub_type_count, buttons_of,
    parameters_present.
  by setoid_rewrite Hperm.
Qed.

Lemma template_validation_order_independent_witness :
  validateTemplateComponents
    [ createPhoneNumberButtonComponent 1 "1234567890";
      createBodyComponent ["John Doe"];
      createUrlButtonComponent 0 "https://example.com/track" ]
  = Returned ().
Proof.
  apply (template_validation_order_independent url_and_phone).
  - symmetry. apply (Permutation_cons_append [_; _]).
  - reflexivity.
Defined.

Lemma requireParameters_error (cs : list TemplateComponent) (msg : string) :
  requireParameters cs = Thrown msg →
  ∃ c, c ∈ cs ∧ component_type c ≠ button ∧ lacks_parameters c = true
       ∧ msg = EmptyComponentParameters (component_type c).
Proof.
  induction cs as [| c cs IH]; [done |]. simpl.
  destruct (bool_decide (component_type c ≠ button) && lacks_parameters c) eqn:Hc.
  - apply andb_true_iff in Hc as [Hb%bool_decide_eq_true Hl].
    intros [= <-]. exists c. split_and!; try done. constructor.
  - intros (c' & Hin & H)%IH. exists c'. split; [by constructor | done].
Qed.

(** X13. The validation throws nothing but its own messages: one of the
    four TooManyButtons messages, one of the two IncompatibleButtonTypes
    messages, DuplicateButtonIndex, DuplicateButtonText, or
    EmptyComponentParameters naming the type of a component of the list
    that is not a button and has no parameter. *)
Theorem template_validation_errors (cs : list TemplateComponent) (msg : string) :
  validateTemplateComponents cs = Thrown msg →
  (∃ st, msg = TooManyButtons st)
  ∨ (∃ e, msg = IncompatibleButtonTypes e)
  ∨ msg = DuplicateButtonIndex
  ∨ msg = DuplicateButtonText
  ∨ (∃ c, c ∈ cs ∧ component_type c ≠ button ∧ lacks_parameters c = true
          ∧ msg = EmptyComponentParameters (component_type c)).
Proof.
  rewrite validateTemplateComponents_eq.
  destruct (validateButtonComponents (buttons_of cs)) as [[] | msg'] eqn:Hb; simpl.
  - intros Hreq. do 4 right. by apply requireParameters_error.
  - intros [= <-]. revert Hb. button_cases cs.
    repeat case_decide; try done; intros [= <-];
      first [ by left; exists quick_reply | by left; exists phone_number
            | by left; exists url | by left; exists copy_code
            | by right; left; exists quick_reply_with_others
            | by right; left; exists copy_code_with_phone_or_url
            | by do 2 right; left | by do 3 right; left ].
Qed.

Lemma template_validation_errors_witness :
  (∃ st, IncompatibleButtonTypes quick_reply_with_others = TooManyButtons st)
  ∨ (∃ e, IncompatibleButtonTypes quick_reply_with_others
          = IncompatibleButtonTypes e)
  ∨ IncompatibleButtonTypes quick_reply_with_others = DuplicateButtonIndex
  ∨ IncompatibleButtonTypes quick_reply_with_others = DuplicateButtonText
  ∨ (∃ c, c ∈ scenario_B ∧ component_type c ≠ button
          ∧ lacks_parameters c = true
          ∧ IncompatibleButtonTypes quick_reply_with_others
            = EmptyComponentParameters (component_type c)).
Proof. apply (template_validation_errors scenario_B). reflexivity. Defined.

(** ** Template components: the constructors *)

Lemma buttons_of_app (l1 l2 : list TemplateComponent) :
  buttons_of (l1 ++ l2) = (buttons_of l1 ++ buttons_of l2)%list.
Proof. apply filter_app. Qed.

Lemma requireParameters_app (l1 l2 : list TemplateComponent) :
  requireParameters (l1 ++ l2)
  = requireParameters l1 ≫= λ _, requireParameters l2.
Proof.
  induction l1 as [| c l1 IH]; [done |]. simpl.
  by destruct (bool_decide (component_type c ≠ button) && lacks_parameters c).
Qed.

Lemma validateTemplateComponents_skip (c : TemplateComponent)
  (l1 l2 : list TemplateComponent) :
  component_type c ≠ button → lacks_parameters c = false →
  validateTemplateComponents (l1 ++ c :: l2) = validateTemplateComponents (l1 ++ l2).
Proof.
  intros Hb Hl. rewrite !validateTemplateComponents_eq, !buttons_of_app.
  unfold buttons_of at 2. rewrite filter_cons, decide_False by done.
  fold (buttons_of l2). rewrite !requireParameters_app. simpl.
  by rewrite Hl, andb_false_r.
Qed.

Lemma validateTemplateComponents_reject (c : TemplateComponent)
  (l1 l2 : list TemplateComponent) :
  component_type c ≠ button → lacks_parameters c = true →
  validateTemplateComponents (l1 ++ c :: l2) ≠ Returned ().
Proof.
  intros Hb Hl Hok. apply validateTemplateComponents_accepts in Hok
    as (_ & _ & _ & _ & Hpar).
  unfold parameters_present in Hpar. rewrite Forall_app, Forall_cons in Hpar.
  destruct Hpar as (_ & Hc & _). specialize (Hc Hb). congruence.
Qed.

(** X14. What the constructors of header, body and footer components
    build: a header component of any kind, and a body or footer
    component made from a non-empty list of texts, can be put anywhere
    in a list without changing the result of the validation; a body or
    footer component made from the empty list makes the validation fail
    wherever it is put. *)
Theorem constructed_components (s : string) (ts : list string)
  (l1 l2 : list TemplateComponent) :
  (∀ c, c ∈ header_components s →
        validateTemplateComponents (l1 ++ c :: l2)
        = validateTemplateComponents (l1 ++ l2))
  ∧ (ts ≠ [] →
     validateTemplateComponents (l1 ++ createBodyComponent ts :: l2)
     = validateTemplateComponents (l1 ++ l2)
     ∧ validateTemplateComponents (l1 ++ createFooterComponent ts :: l2)
       = validateTemplateComponents (l1 ++ l2))
  ∧ validateTemplateComponents (l1 ++ createBodyComponent [] :: l2) ≠ Returned ()
  ∧ validateTemplateComponents (l1 ++ createFooterComponent [] :: l2) ≠ Returned ().
Proof.
  split_and!.
  - intros c Hc. apply validateTemplateComponents_skip;
      unfold header_components in Hc;
      repeat (apply elem_of_cons in Hc as [-> | Hc]; [done |]);
      by apply elem_of_nil in Hc.
  - intros Hts. destruct ts as [| t ts]; [done |].
    split; by apply validateTemplateComponents_skip.
  - by apply validateTemplateComponents_reject.
  - by apply validateTemplateComponents_reject.
Qed.

Lemma constructed_components_witness :
  validateTemplateComponents
    ([createBodyComponent ["John Doe"]]
     ++ createHeaderImageComponent "https://example.com/a.png"
     :: [createUrlButtonComponent 0 "https://example.com/track"])
  = validateTemplateComponents
      ([createBodyComponent ["John Doe"]]
       ++ [createUrlButtonComponent 0 "https://example.com/track"])
  ∧ validateTemplateComponents
      ([] ++ createFooterComponent ["Thanks"] :: [createBodyComponent ["John Doe"]])
    = validateTemplateComponents ([] ++ [createBodyComponent ["John Doe"]]).
Proof.
  split.
  - apply (proj1 (constructed_components "https://example.com/a.png" []
                    [createBodyComponent ["John Doe"]]
                    [createUrlButtonComponent 0 "https://example.com/track"])).
    unfold header_components. repeat constructor.
  - apply (proj1 (proj2 (constructed_components "" ["Thanks"] []
                           [createBodyComponent ["John Doe"]]))).
    discriminate.
Defined.

Lemma buttons_of_quick_reply_buttons (bs : list (Z * string)) :
  buttons_of (quick_reply_buttons bs) = quick_reply_buttons bs.
Proof.
  unfold buttons_of, quick_reply_buttons.
  induction bs as [| [i s] bs IH]; [done |].
  rewrite fmap_cons, filter_cons, decide_True by done. by rewrite IH.
Qed.

Lemma sub_type_count_quick_reply_buttons (st : ButtonSubType)
  (bs : list (Z * string)) :
  sub_type_count st (quick_reply_buttons bs)
  = if decide (st = quick_reply) then length bs else 0.
Proof.
  unfold sub_type_count, quick_reply_buttons.
  induction bs as [| [i s] bs IH]; [by destruct (decide (st = quick_reply)) |].
  rewrite fmap_cons, filter_cons.
  destruct (decide (st = quick_reply)) as [-> | Hst].
  - rewrite decide_True by done. simpl. by rewrite IH.
  - rewrite decide_False; [done |]. simpl. congruence.
Qed.

Lemma index_quick_reply_buttons (bs : list (Z * string)) :
  index <$> quick_reply_buttons bs = Some <$> bs.*1.
Proof.
  unfold quick_reply_buttons. induction bs as [| [i s] bs IH]; [done |].
  rewrite !fmap_cons, IH. done.
Qed.

Lemma first_text_quick_reply_buttons (bs : list (Z * string)) :
  first_text <$> quick_reply_buttons bs = Some <$> bs.*2.
Proof.
  unfold quick_reply_buttons. induction bs as [| [i s] bs IH]; [done |].
  rewrite !fmap_cons, IH. done.
Qed.

Lemma parameters_present_quick_reply_buttons (bs : list (Z * string)) :
  parameters_present (quick_reply_buttons bs).
Proof.
  unfold parameters_present, quick_reply_buttons.
  induction bs as [| [i s] bs IH]; [constructor |].
  rewrite fmap_cons. by constructor.
Qed.

(** X15. A list of quick-reply buttons built with
    [createQuickReplyButtonComponent] is accepted exactly when there are
    at most 10 of them, their indices are pairwise distinct and their
    texts are pairwise distinct. *)
Theorem quick_reply_buttons_accepted (bs : list (Z * string)) :
  validateTemplateComponents (quick_reply_buttons bs) = Returned ()
  ↔ length bs ≤ 10 ∧ NoDup bs.*1 ∧ NoDup bs.*2.
Proof.
  rewrite validateTemplateComponents_accepts.
  unfold within_limits, compatible, button_count.
  rewrite buttons_of_quick_reply_buttons, index_quick_reply_buttons,
    first_text_quick_reply_buttons, !(NoDup_fmap Some).
  setoid_rewrite sub_type_count_quick_reply_buttons. simpl. split.
  - intros (Hlim & _ & H1 & H2 & _). specialize (Hlim quick_reply).
    by split_and!.
  - intros (Hlen & H1 & H2). split_and!; try done.
    + intros []; simpl; lia.
    + apply parameters_present_quick_reply_buttons.
Qed.

Lemma quick_reply_buttons_accepted_witness :
  validateTemplateComponents
    (quick_reply_buttons [ (0%Z, "Track Order"); (1%Z, "Contact Support") ])
  = Returned ()
  ∧ NoDup [ "Track Order"; "Contact Support" ].
Proof.
  split.
  - apply (quick_reply_buttons_accepted
             [ (0%Z, "Track Order"); (1%Z, "Contact Support") ]).
    split_and!; [simpl; lia | compute_done | compute_done].
  - apply (quick_reply_buttons_accepted
             [ (0%Z, "Track Order"); (1%Z, "Contact Support") ]).
    reflexivity.
Defined.

(** X16. A URL button and a phone-number button built with the
    constructors are accepted together exactly when their indices
    differ and the URL differs from the phone number: the texts are
    compared across the sub-types. *)
Theorem url_and_phone_buttons_accepted (i j : Z) (u p : string) :
  validateTemplateComponents
    [ createUrlButtonComponent i u; createPhoneNumberButtonComponent j p ]
  = Returned ()
  ↔ i ≠ j ∧ u ≠ p.
Proof.
  rewrite validateTemplateComponents_accepts.
  assert (within_limits [createUrlButtonComponent i u;
                         createPhoneNumberButtonComponent j p]) as Hlim.
  { intros []; vm_compute; lia. }
  assert (compatible [createUrlButtonComponent i u;
                      createPhoneNumberButtonComponent j p]) as Hcomp.
  { split; vm_compute; lia. }
  assert (parameters_present [createUrlButtonComponent i u;
                              createPhoneNumberButtonComponent j p]) as Hpar.
  { by repeat constructor. }
  change (buttons_of [createUrlButtonComponent i u;
                      createPhoneNumberButtonComponent j p])
    with [createUrlButtonComponent i u; createPhoneNumberButtonComponent j p].
  change (index <$> _) with [Some i; Some j].
  change (first_text <$> _) with [Some u; Some p].
  rewrite !NoDup_cons, !list_elem_of_singleton. split.
  - intros (_ & _ & (Hi & _) & (Hu & _) & _). split; congruence.
  - intros [Hi Hu]. split_and!; try done; try congruence;
      try apply not_elem_of_nil; constructor.
Qed.

Lemma url_and_phone_buttons_accepted_witness :
  validateTemplateComponents
    [ createUrlButtonComponent 0 "https://example.com/track";
      createPhoneNumberButtonComponent 1 "1234567890" ]
  = Returned ().
Proof.
  apply (url_and_phone_buttons_accepted 0 1 "https://example.com/track"
           "1234567890").
  split; discriminate.
Defined.

(** ** Sending a template message *)

Section TemplateSending.
Variable config : SendZenConfig.
Variable httpClient : Request → outcome ApiResponse.

(** X17. [sendTemplateMessage] issues its request exactly when the
    sender, the recipient, the language code and the components (if any
    are given) pass their checks: then it appends one POST of the
    template message, which carries the name, the language code and the
    components as they were given; otherwise it throws and the log of
    requests is unchanged. The checks run in this order, so an error of
    the components is reported only when the three strings are well
    formed. *)
Theorem sendTemplateMessage_request (p : TemplateMessagePayload)
  (net : list Request) :
  let valid :=
    validatePhoneNumber (config_from config) = true
    ∧ validatePhoneNumber (payload_to p) = true
    ∧ validateLanguageCode (langCode p) = true
    ∧ components_accepted p in
  (valid →
   sendTemplateMessage config httpClient p net
   = (httpClient (template_request (config_from config) p),
      (net ++ [template_request (config_from config) p])%list))
  ∧ (¬ valid → ∃ msg, sendTemplateMessage config httpClient p net = (Thrown msg, net))
  ∧ (∀ cs msg,
       validatePhoneNumber (config_from config) = true →
       validatePhoneNumber (payload_to p) = true →
       validateLanguageCode (langCode p) = true →
       components p = Some cs → validateTemplateComponents cs = Thrown msg →
       sendTemplateMessage config httpClient p net = (Thrown msg, net)).
Proof.
  intros valid. unfold valid, components_accepted, sendTemplateMessage,
    getFromNumber, mbind, Service_bind, pure_call, template_request, post,
    request, post_request. split_and!.
  - intros (-> & -> & -> & Hc). cbn [negb].
    destruct (components p) as [cs |]; [by rewrite Hc | done].
  - intros Hnot.
    destruct (validatePhoneNumber (config_from config)); cbn [negb];
      [| by eexists].
    destruct (validatePhoneNumber (payload_to p)); cbn [negb]; [| by eexists].
    destruct (validateLanguageCode (langCode p)); cbn [negb]; [| by eexists].
    destruct (components p) as [cs |]; [| by destruct Hnot].
    destruct (validateTemplateComponents cs) as [[] | msg]; [| by eexists].
    by destruct Hnot.
  - intros cs msg -> -> -> -> ->. done.
Qed.

End TemplateSending.

Lemma sendTemplateMessage_request_witness :
  sendTemplateMessage example_config queueing_client
    {| payload_to := "14155552671"; templateName := "order_confirmation";
       langCode := "en_US"; components := Some url_and_phone; options := None |} []
  = (let r :=
       post_request
         (Template {| template_from := "14155550100";
                      template_to := "14155552671";
                      template_name := "order_confirmation";
                      lang_code := "en_US";
                      template_components := Some url_and_phone |})
         None in
     (queueing_client r, [r]))
  ∧ (∃ msg, sendTemplateMessage example_config queueing_client
              (template_payload "14155552671" "english") []
            = (Thrown msg, []))
  ∧ sendTemplateMessage example_config queueing_client
      {| payload_to := "14155552671"; templateName := "order_confirmation";
         langCode := "en_US"; components := Some scenario_B; options := None |} []
    = (Thrown (IncompatibleButtonTypes quick_reply_with_others), []).
Proof.
  split_and!.
  - apply (sendTemplateMessage_request example_config queueing_client
             {| payload_to := "14155552671"; templateName := "order_confirmation";
                langCode := "en_US"; components := Some url_and_phone;
                options := None |} []).
    by split_and!.
  - apply (sendTemplateMessage_request example_config queueing_client
             (template_payload "14155552671" "english") []).
    intros (_ & _ & Hlang & _). discriminate Hlang.
  - pose proof (sendTemplateMessage_request example_config queueing_client
                  {| payload_to := "14155552671";
                     templateName := "order_confirmation";
                     langCode := "en_US"; components := Some scenario_B;
                     options := None |} []) as H.
    cbv zeta in H. destruct H as (_ & _ & H). by apply (H scenario_B).
Defined.

(** ** The phone-number predicate again *)

(** X18. The length test of [validatePhoneNumber] never decides: a
    string passes the predicate exactly when it matches the pattern,
    which no string of more than 14 characters does. *)
Theorem phone_length_test_redundant (s : string) :
  validatePhoneNumber s = RegExp.test phonePattern s
  ∧ (14 < String.length s → validatePhoneNumber s = false).
Proof.
  split.
  - destruct (validatePhoneNumber s) eqn:Hv.
    + unfold validatePhoneNumber in Hv. by apply andb_true_iff in Hv as [-> _].
    + unfold validatePhoneNumber in Hv. apply andb_false_iff in Hv as [-> | Hlen];
        [done |].
      destruct (RegExp.test phonePattern s) eqn:Ht; [| done].
      assert (validatePhoneNumber s = true) as Hs.
      { apply validatePhoneNumber_shape.
        apply test_lang in Ht. revert Ht. unfold phonePattern.
        intros (u1 & r1 & Hw & (c & -> & Hc)%lang_range_inv & Hl)%lang_cat_inv.
        apply lang_cat_inv in Hl as (cc & r2 & -> & [Hlen' Hcc]%lang_upto_range & Hl).
        apply lang_cat_inv in Hl
          as (u3 & nn & -> & (n & -> & Hn)%lang_range_inv & [Hnn' Hnn]%lang_rep_range).
        by exists c, cc, n, nn. }
      apply validatePhoneNumber_length in Hs. apply Nat.leb_gt in Hlen. lia.
  - intros Hlen. destruct (validatePhoneNumber s) eqn:Hv; [| done].
    apply validatePhoneNumber_length in Hv. lia.
Qed.

Lemma phone_length_test_redundant_witness :
  validatePhoneNumber "141555526710000" = false.
Proof.
  apply (phone_length_test_redundant "141555526710000"). simpl. lia.
Defined.

(** ** Pagination parameters *)

(** X19. [buildPaginationParams] keeps a parameter only when it is
    truthy: a page or a limit equal to 0 and an empty sort key are left
    out like the absent ones. What is kept appears under [page],
    [limit], [sort_by], [sort_order], in this order, and without
    parameters the result is the empty object. *)
Theorem pagination_params (params : BaseService.PaginationParams) :
  let r := BaseService.buildPaginationParams (Some params) in
  get_prop "page" r
  = (z ← BaseService.page params;
     if decide (z = 0%Z) then None else Some (JsNumber z))
  ∧ get_prop "limit" r
    = (z ← BaseService.limit params;
       if decide (z = 0%Z) then None else Some (JsNumber z))
  ∧ get_prop "sort_by" r
    = (s ← BaseService.sortBy params;
       if decide (s = "") then None else Some (JsString s))
  ∧ get_prop "sort_order" r
    = (λ o, JsString (BaseService.sort_order_name o))
        <$> BaseService.sortOrder params
  ∧ r.*1 `sublist_of` ["page"; "limit"; "sort_by"; "sort_order"]
  ∧ BaseService.buildPaginationParams None = [].
Proof.
  destruct params as [[p |] [l |] [s |] [o |]];
    unfold BaseService.buildPaginationParams;
    cbn [BaseService.page BaseService.limit BaseService.sortBy
         BaseService.sortOrder BaseService.truthy_number truthy
         BaseService.of_optional_number of_optional
         BaseService.of_optional_order mbind option_bind fmap option_fmap
         option_map];
    repeat match goal with
      | |- context [(?z =? 0)%Z] => destruct (Z.eqb_spec z 0)
      | |- context [String.eqb ?x ""] => destruct (String.eqb_spec x "")
      end;
    cbn; split_and!; repeat case_decide; try done; repeat constructor.
Qed.

(** ** The helpers of the HTTP client *)

Lemma js_or_truthy (a b : JsValue) :
  HttpClient.js_truthy b = true →
  HttpClient.js_truthy (HttpClient.js_or a b) = true.
Proof.
  intros Hb. unfold HttpClient.js_or.
  by destruct (HttpClient.js_truthy a) eqn:Ha.
Qed.

(** X20. Whatever the error, [handleError] returns a message, a code
    and details that are truthy (none of them is undefined or the empty
    string). The status is absent exactly for an error with neither a
    response nor a request; with a response it is the status of the
    response, and with a request only it is 0 under the code
    NETWORK_ERROR. *)
Theorem handleError_classifies (e : HttpClient.AxiosError) :
  HttpClient.js_truthy (HttpClient.error_message (HttpClient.handleError e)) = true
  ∧ HttpClient.js_truthy (HttpClient.error_code (HttpClient.handleError e)) = true
  ∧ HttpClient.js_truthy (HttpClient.error_details (HttpClient.handleError e)) = true
  ∧ (HttpClient.error_status (HttpClient.handleError e) = None
     ↔ HttpClient.response e = None
       ∧ HttpClient.js_truthy (HttpClient.request e) = false)
  ∧ (∀ r, HttpClient.response e = Some r →
          HttpClient.error_status (HttpClient.handleError e)
          = Some (HttpClient.status r))
  ∧ (HttpClient.response e = None →
     HttpClient.js_truthy (HttpClient.request e) = true →
     HttpClient.error_status (HttpClient.handleError e) = Some 0%Z
     ∧ HttpClient.error_code (HttpClient.handleError e) = JsString "NETWORK_ERROR").
Proof.
  unfold HttpClient.handleError.
  destruct (HttpClient.response e) as [r |];
    [| destruct (HttpClient.js_truthy (HttpClient.request e)) eqn:Hreq];
    cbn [HttpClient.error_message HttpClient.error_code HttpClient.error_details
         HttpClient.error_status];
    split_and!; try (by apply js_or_truthy); try done;
    try (split; [done | by intros []]); try (by intros ? [= <-]).
Qed.

Lemma handleError_classifies_witness :
  HttpClient.error_status
    (HttpClient.handleError
       {| HttpClient.response := None;
          HttpClient.request := JsObject [];
          HttpClient.message := JsString "timeout of 30000ms exceeded" |})
  = Some 0%Z
  ∧ HttpClient.error_code
      (HttpClient.handleError
         {| HttpClient.response := None;
            HttpClient.request := JsObject [];
            HttpClient.message := JsString "timeout of 30000ms exceeded" |})
    = JsString "NETWORK_ERROR".
Proof.
  apply (handleError_classifies
           {| HttpClient.response := None;
              HttpClient.request := JsObject [];
              HttpClient.message := JsString "timeout of 30000ms exceeded" |});
    reflexivity.
Defined.

(** X21. [formatResponse] always gives a truthy message. Its data is
    the [data] property of the response body when that property is
    truthy, and the whole body otherwise: a body whose [data] is absent,
    0, false or the empty string is passed on as it is, not unwrapped.
    Status, status text and headers are those of the response. *)
Theorem formatResponse_unwraps (r : HttpClient.AxiosResponse) :
  let f := HttpClient.formatResponse r in
  let inner := HttpClient.js_get (HttpClient.data r) "data" in
  HttpClient.js_truthy (HttpClient.formatted_message f) = true
  ∧ (HttpClient.js_truthy inner = true → HttpClient.formatted_data f = inner)
  ∧ (HttpClient.js_truthy inner = false →
     HttpClient.formatted_data f = HttpClient.data r)
  ∧ (HttpClient.js_truthy (HttpClient.formatted_data f) = false →
     HttpClient.js_truthy (HttpClient.data r) = false)
  ∧ (HttpClient.formatted_status f, HttpClient.formatted_statusText f,
     HttpClient.formatted_headers f)
    = (HttpClient.status r, HttpClient.statusText r, HttpClient.headers r).
Proof.
  intros f inner. unfold f, inner, HttpClient.formatResponse.
  cbn [HttpClient.formatted_message HttpClient.formatted_data
       HttpClient.formatted_status HttpClient.formatted_statusText
       HttpClient.formatted_headers].
  split_and!; try done.
  - by apply js_or_truthy.
  - intros Hin. unfold HttpClient.js_or. by rewrite Hin.
  - intros Hin. unfold HttpClient.js_or. by rewrite Hin.
  - unfold HttpClient.js_or.
    destruct (HttpClient.js_truthy
                (HttpClient.js_get (HttpClient.data r) "data")) eqn:Hin;
      [by rewrite Hin | done].
Qed.

Lemma formatResponse_unwraps_witness :
  HttpClient.formatted_data
    (HttpClient.formatResponse
       {| HttpClient.data :=
            JsObject [ ("message", JsString "ok"); ("data", JsNumber 0) ];
          HttpClient.status := 200;
          HttpClient.statusText := "OK";
          HttpClient.headers := [] |})
  = JsObject [ ("message", JsString "ok"); ("data", JsNumber 0) ]
  ∧ HttpClient.formatted_data
      (HttpClient.formatResponse
         {| HttpClient.data :=
              JsObject [ ("message", JsString "ok"); ("data", JsArray []) ];
            HttpClient.status := 200;
            HttpClient.statusText := "OK";
            HttpClient.headers := [] |})
    = JsArray [].
Proof.
  split.
  - apply (formatResponse_unwraps
             {| HttpClient.data :=
                  JsObject [ ("message", JsString "ok"); ("data", JsNumber 0) ];
                HttpClient.status := 200;
                HttpClient.statusText := "OK";
                HttpClient.headers := [] |}).
    reflexivity.
  - apply (formatResponse_unwraps
             {| HttpClient.data :=
                  JsObject [ ("message", JsString "ok"); ("data", JsArray []) ];
                HttpClient.status := 200;
                HttpClient.statusText := "OK";
                HttpClient.headers := [] |}).
    reflexivity.
Defined.

(** X22. [buildRequestConfig] sets a timeout exactly when the options
    give one other than 0, and the headers exactly when the options give
    some; the [retry] option has no part in the result. *)
Theorem buildRequestConfig_reads (o : option RequestOptions) :
  (∀ z, HttpClient.config_timeout_ms (HttpClient.buildRequestConfig o) = Some z
        ↔ o ≫= opt_timeout = Some z ∧ z ≠ 0%Z)
  ∧ HttpClient.config_headers (HttpClient.buildRequestConfig o) = o ≫= opt_headers
  ∧ (∀ t h r1 r2,
       HttpClient.buildRequestConfig
         (Some {| opt_timeout := t; opt_headers := h; opt_retry := r1 |})
       = HttpClient.buildRequestConfig
           (Some {| opt_timeout := t; opt_headers := h; opt_retry := r2 |})).
Proof.
  unfold HttpClient.buildRequestConfig. cbv zeta. split_and!.
  - intros z. unfold BaseService.truthy_number.
    destruct (o ≫= opt_timeout) as [t |]; destruct (o ≫= opt_headers);
      cbn [HttpClient.config_timeout_ms]; [| | by split; [| intros []] ..].
    all: destruct (Z.eqb_spec t 0); cbn [negb HttpClient.config_timeout_ms];
      split; try done; try (intros [[= ->] Hz]; done); try (intros [= ->]; done).
  - destruct (BaseService.truthy_number (o ≫= opt_timeout));
      by destruct (o ≫= opt_headers).
  - done.
Qed.

Lemma buildRequestConfig_reads_witness :
  HttpClient.config_timeout_ms
    (HttpClient.buildRequestConfig
       (Some {| opt_timeout := Some 5000%Z; opt_headers := None;
                opt_retry := None |}))
  = Some 5000%Z.
Proof.
  apply (buildRequestConfig_reads
           (Some {| opt_timeout := Some 5000%Z; opt_headers := None;
                    opt_retry := None |})).
  split; [reflexivity | discriminate].
Defined.

(** ** The SDK object *)

Lemma string_eqb_empty (s : string) : String.eqb s "" = false ↔ s ≠ "".
Proof. apply String.eqb_neq. Qed.

Lemma truthy_Some_false (s : string) : truthy (Some s) = false ↔ s = "".
Proof.
  simpl. rewrite negb_false_iff. apply String.eqb_eq.
Qed.

Lemma constructor_returns (c : Sdk.ConfigInput) (dev : option Sdk.DeveloperOptions) :
  Sdk.in_apiKey c ≠ "" → Sdk.in_from c ≠ "" →
  Sdk.constructor c dev
  = Returned
      {| Sdk.config :=
           {| Sdk.cfg_apiKey := Some (Sdk.in_apiKey c);
              Sdk.cfg_from := Some (Sdk.in_from c);
              Sdk.cfg_timeout :=
                Sdk.read (Sdk.override (Sdk.in_timeout c)
                            (Sdk.present (Some 30000%Z))) |};
         Sdk.developerOptions := Sdk.initializeDeveloperOptions dev;
         Sdk.httpClient :=
           Sdk.newHttpClient Sdk.messages_url (Some (Sdk.in_apiKey c))
             (Sdk.read (Sdk.override (Sdk.in_timeout c)
                          (Sdk.present (Some 30000%Z))))
             (Sdk.initializeDeveloperOptions dev) |}.
Proof.
  intros Hk%truthy_Some_true Hf%truthy_Some_true. unfold Sdk.constructor.
  cbv zeta. cbn [Sdk.cfg_apiKey Sdk.cfg_from Sdk.cfg_timeout].
  by rewrite Hk, Hf.
Qed.

(** X23. The constructor asks for a non-empty API key, then for a
    non-empty sender, and for nothing else. When it succeeds the sender
    is the one given; the configuration holds 30000 as its timeout when
    the given one has no timeout key, and otherwise the value of that
    key, [undefined] included; the HTTP client is built on the messages
    endpoint with the key, the header [Bearer] plus key, and the timeout
    given or, without a value, 30000. *)
Theorem constructor_requirements (c : Sdk.ConfigInput)
  (dev : option Sdk.DeveloperOptions) :
  (Sdk.in_apiKey c = "" → Sdk.constructor c dev = Thrown "API key is required")
  ∧ (Sdk.in_apiKey c ≠ "" → Sdk.in_from c = "" →
     Sdk.constructor c dev = Thrown "From phone number is required")
  ∧ (Sdk.in_apiKey c ≠ "" → Sdk.in_from c ≠ "" →
     ∃ this, Sdk.constructor c dev = Returned this
             ∧ Sdk.getFromNumber this = Some (Sdk.in_from c)
             ∧ Sdk.cfg_apiKey (Sdk.getConfig this) = Some (Sdk.in_apiKey c)
             ∧ Sdk.cfg_timeout (Sdk.getConfig this)
               = match Sdk.in_timeout c with
                 | Sdk.absent => Some 30000%Z
                 | Sdk.present v => v
                 end
             ∧ Sdk.baseUrl (Sdk.httpClient this)
               = "https://api.sendzen.io/v1/messages"
             ∧ Sdk.client_apiKey (Sdk.httpClient this) = Some (Sdk.in_apiKey c)
             ∧ Sdk.authorization (Sdk.httpClient this)
               = "Bearer " +:+ Sdk.in_apiKey c
             ∧ Sdk.defaultTimeout (Sdk.httpClient this)
               = default 30000%Z (Sdk.read (Sdk.in_timeout c))).
Proof.
  split_and!.
  - intros Hk. unfold Sdk.constructor. cbv zeta. cbn [Sdk.cfg_apiKey].
    by rewrite Hk.
  - intros Hk%truthy_Some_true Hf. unfold Sdk.constructor. cbv zeta.
    cbn [Sdk.cfg_apiKey Sdk.cfg_from]. by rewrite Hk, Hf.
  - intros Hk Hf. eexists. split; [by apply constructor_returns |].
    unfold Sdk.getFromNumber, Sdk.getConfig, Sdk.newHttpClient.
    cbn [Sdk.config Sdk.httpClient Sdk.cfg_apiKey Sdk.cfg_from Sdk.cfg_timeout
         Sdk.baseUrl Sdk.client_apiKey Sdk.authorization Sdk.defaultTimeout
         Sdk.template default].
    by destruct (Sdk.in_timeout c) as [| [t |]].
Qed.

Lemma constructor_requirements_witness :
  Sdk.constructor
    {| Sdk.in_apiKey := ""; Sdk.in_from := ""; Sdk.in_timeout := Sdk.absent |} None
  = Thrown "API key is required"
  ∧ Sdk.constructor
      {| Sdk.in_apiKey := "key"; Sdk.in_from := ""; Sdk.in_timeout := Sdk.absent |}
      None
    = Thrown "From phone number is required"
  ∧ ∃ this,
      Sdk.constructor
        {| Sdk.in_apiKey := "key"; Sdk.in_from := "14155550100";
           Sdk.in_timeout := Sdk.present None |} None
      = Returned this
      ∧ Sdk.cfg_timeout (Sdk.getConfig this) = None
      ∧ Sdk.defaultTimeout (Sdk.httpClient this) = 30000%Z.
Proof.
  split_and!.
  - by apply (constructor_requirements
                {| Sdk.in_apiKey := ""; Sdk.in_from := "";
                   Sdk.in_timeout := Sdk.absent |} None).
  - by apply (constructor_requirements
                {| Sdk.in_apiKey := "key"; Sdk.in_from := "";
                   Sdk.in_timeout := Sdk.absent |} None).
  - destruct (proj2 (proj2 (constructor_requirements
                              {| Sdk.in_apiKey := "key";
                                 Sdk.in_from := "14155550100";
                                 Sdk.in_timeout := Sdk.present None |} None)))
      as (this & Hthis & _ & _ & Hcfg & _ & _ & _ & Ht); [done | done |].
    by exists this.
Defined.

(** X24. The constructor does not look at the format of the sender: an
    SDK built with a sender that is not a well-formed number is built
    all the same, and then every text message sent by a service whose
    sender is the one of this SDK is refused with the error naming the
    sender, without a request. *)
Theorem constructed_with_malformed_sender (c : Sdk.ConfigInput)
  (dev : option Sdk.DeveloperOptions)
  (httpClient : Request → outcome ApiResponse) (recipient s : string)
  (previewUrl : option bool) (o : option RequestOptions) (net : list Request) :
  Sdk.in_apiKey c ≠ "" → Sdk.in_from c ≠ "" →
  validatePhoneNumber (Sdk.in_from c) = false →
  ∃ this, Sdk.constructor c dev = Returned this
          ∧ Sdk.getFromNumber this = Some (Sdk.in_from c)
          ∧ ∀ cfg : SendZenConfig,
              Sdk.getFromNumber this = Some (getFromNumber cfg) →
              sendTextMessage cfg httpClient recipient s previewUrl o net
              = (Thrown (InvalidSender (Sdk.in_from c)), net).
Proof.
  intros Hk Hf Hv. eexists. split; [by apply constructor_returns |].
  unfold Sdk.getFromNumber. cbn [Sdk.config Sdk.cfg_from]. split; [done |].
  intros cfg [= Hcfg]. unfold sendTextMessage. rewrite <- Hcfg in *.
  by apply sendMessage_invalid_from.
Qed.

Lemma constructed_with_malformed_sender_witness :
  ∃ this,
    Sdk.constructor
      {| Sdk.in_apiKey := "key"; Sdk.in_from := "1234567890";
         Sdk.in_timeout := Sdk.absent |} None
    = Returned this
    ∧ sendTextMessage
        {| apiKey := "key"; config_from := "1234567890"; config_timeout := None |}
        queueing_client "14155552671" "Hello" None None []
      = (Thrown (InvalidSender "1234567890"), []).
Proof.
  destruct (constructed_with_malformed_sender
              {| Sdk.in_apiKey := "key"; Sdk.in_from := "1234567890";
                 Sdk.in_timeout := Sdk.absent |}
              None queueing_client "14155552671" "Hello" None None [])
    as (this & Hthis & Hfrom & Hsend);
    [discriminate | discriminate | reflexivity |].
  exists this. split; [exact Hthis |].
  apply Hsend. exact Hfrom.
Defined.

(** X25. The API key of the client and that of the configuration. They
    agree after the constructor. [updateConfig] keeps them in agreement
    when its argument has no key property or a non-empty key; when the
    property is there with the empty string or [undefined], that value
    reaches the configuration and not the client, which breaks the
    agreement unless the configuration held that value already.
    [updateDeveloperOptions] rebuilds the client and restores the
    agreement in every case. *)
Theorem api_key_agreement (this : Sdk.WaMessageApi) (n : Sdk.PartialConfig)
  (options : Sdk.DeveloperOptions) :
  (∀ c dev this', Sdk.constructor c dev = Returned this' → Sdk.key_in_sync this')
  ∧ (Sdk.key_in_sync this →
     Sdk.new_apiKey n = Sdk.absent
     ∨ (∃ k, Sdk.new_apiKey n = Sdk.present (Some k) ∧ k ≠ "") →
     Sdk.key_in_sync (Sdk.updateConfig n this))
  ∧ (∀ v, Sdk.key_in_sync this →
          Sdk.new_apiKey n = Sdk.present v → truthy v = false →
          Sdk.cfg_apiKey (Sdk.config this) ≠ v →
          ¬ Sdk.key_in_sync (Sdk.updateConfig n this)
          ∧ Sdk.cfg_apiKey (Sdk.getConfig (Sdk.updateConfig n this)) = v
          ∧ Sdk.client_apiKey (Sdk.httpClient (Sdk.updateConfig n this))
            = Sdk.cfg_apiKey (Sdk.config this))
  ∧ Sdk.key_in_sync (Sdk.updateDeveloperOptions options this).
Proof.
  split_and!.
  - intros c dev this'. unfold Sdk.constructor. cbv zeta.
    cbn [Sdk.cfg_apiKey Sdk.cfg_from Sdk.cfg_timeout].
    destruct (truthy (Some (Sdk.in_apiKey c))); [| done].
    destruct (truthy (Some (Sdk.in_from c))); [| done].
    by intros [= <-].
  - intros [Hkey Hauth] Hn. unfold Sdk.key_in_sync, Sdk.updateConfig.
    cbn [Sdk.config Sdk.httpClient Sdk.cfg_apiKey].
    destruct Hn as [-> | (k & -> & Hk)]; [done |].
    cbn [Sdk.read Sdk.override]. by rewrite (truthy_Some_true k Hk).
  - intros v [Hkey Hauth] Hn Hv Hold.
    unfold Sdk.key_in_sync, Sdk.updateConfig, Sdk.getConfig.
    cbn [Sdk.config Sdk.httpClient Sdk.cfg_apiKey]. rewrite Hn.
    cbn [Sdk.read Sdk.override].
    assert (match v with
            | Some key =>
                if truthy (Some key) then Sdk.updateApiKey key (Sdk.httpClient this)
                else Sdk.httpClient this
            | None => Sdk.httpClient this
            end = Sdk.httpClient this) as ->.
    { destruct v as [k |]; [by rewrite Hv | done]. }
    split_and!; try done. intros [Hbad _]. congruence.
  - done.
Qed.

Lemma api_key_agreement_witness :
  ∃ this, Sdk.constructor Sdk.example_input None = Returned this
          ∧ Sdk.key_in_sync this
          ∧ Sdk.key_in_sync
              (Sdk.updateConfig
                 {| Sdk.new_apiKey := Sdk.present (Some "other");
                    Sdk.new_from := Sdk.absent;
                    Sdk.new_timeout := Sdk.absent |} this)
          ∧ ¬ Sdk.key_in_sync
                (Sdk.updateConfig
                   {| Sdk.new_apiKey := Sdk.present (Some "");
                      Sdk.new_from := Sdk.absent;
                      Sdk.new_timeout := Sdk.absent |} this)
          ∧ ¬ Sdk.key_in_sync
                (Sdk.updateConfig
                   {| Sdk.new_apiKey := Sdk.present None;
                      Sdk.new_from := Sdk.absent;
                      Sdk.new_timeout := Sdk.absent |} this).
Proof.
  destruct (Sdk.constructor Sdk.example_input None) as [this |] eqn:Hthis;
    [| discriminate Hthis].
  exists this.
  pose proof (api_key_agreement this
                {| Sdk.new_apiKey := Sdk.present (Some "other");
                   Sdk.new_from := Sdk.absent;
                   Sdk.new_timeout := Sdk.absent |} Sdk.defaultOptions)
    as (Hinit & Hkeep & _ & _).
  pose proof (api_key_agreement this
                {| Sdk.new_apiKey := Sdk.present (Some "");
                   Sdk.new_from := Sdk.absent;
                   Sdk.new_timeout := Sdk.absent |} Sdk.defaultOptions)
    as (_ & _ & Hempty & _).
  pose proof (api_key_agreement this
                {| Sdk.new_apiKey := Sdk.present None;
                   Sdk.new_from := Sdk.absent;
                   Sdk.new_timeout := Sdk.absent |} Sdk.defaultOptions)
    as (_ & _ & Hundefined & _).
  pose proof (Hinit Sdk.example_input None this Hthis) as Hsync.
  injection Hthis as <-.
  split_and!; [done | done | | | ].
  - apply Hkeep; [done |]. right. by exists "other".
  - by apply (Hempty (Some "")).
  - by apply (Hundefined None).
Defined.

(** ** Developer options *)

Lemma override_present {A : Type} (b : Sdk.slot A) (v : option A) :
  Sdk.is_present (Sdk.override b (Sdk.present v)).
Proof. by destruct b. Qed.

Lemma override_id {A : Type} (b : Sdk.slot A) (v : option A) :
  Sdk.override (Sdk.override b (Sdk.present v)) (Sdk.present v)
  = Sdk.override b (Sdk.present v).
Proof. by destruct b. Qed.

Lemma spread_default_all_keys (o : Sdk.DeveloperOptions) :
  Sdk.all_keys (Sdk.spread Sdk.defaultOptions o).
Proof.
  unfold Sdk.all_keys, Sdk.switches, Sdk.spread, Sdk.defaultOptions.
  cbn [Sdk.logs Sdk.logLevel Sdk.logFormat Sdk.enableRequestLogging
       Sdk.enableResponseLogging Sdk.enableErrorLogging Sdk.enableDebugLogging].
  split_and!; try apply override_present.
  repeat apply Forall_cons_2; try apply Forall_nil_2; apply override_present.
Qed.

Lemma spread_default_id (o : Sdk.DeveloperOptions) :
  Sdk.spread Sdk.defaultOptions (Sdk.spread Sdk.defaultOptions o)
  = Sdk.spread Sdk.defaultOptions o.
Proof.
  unfold Sdk.spread, Sdk.defaultOptions.
  cbn [Sdk.logs Sdk.logLevel Sdk.logFormat Sdk.enableRequestLogging
       Sdk.enableResponseLogging Sdk.enableErrorLogging Sdk.enableDebugLogging].
  by rewrite !override_id.
Qed.

(** X26. [initializeDeveloperOptions]. With a non-empty list of logs
    the four logging switches say which kinds are in the list, whatever
    switches were passed; otherwise each switch is the one passed when
    its key is there (be it [undefined]) and false when it is not.
    Without options the result is the default. The result has every
    key, and initialising it again changes nothing. *)
Theorem developer_options_initialised (options : option Sdk.DeveloperOptions) :
  let r := Sdk.initializeDeveloperOptions options in
  (∀ o k ks, options = Some o → Sdk.read (Sdk.logs o) = Some (k :: ks) →
     Sdk.switches r
     = [ Sdk.present (Some (bool_decide (Sdk.log_request ∈ k :: ks)));
         Sdk.present (Some (bool_decide (Sdk.log_response ∈ k :: ks)));
         Sdk.present (Some (bool_decide (Sdk.log_error ∈ k :: ks)));
         Sdk.present (Some (bool_decide (Sdk.log_debug ∈ k :: ks))) ])
  ∧ (∀ o, options = Some o →
       Sdk.read (Sdk.logs o) = None ∨ Sdk.read (Sdk.logs o) = Some [] →
       Sdk.switches r
       = (λ s, Sdk.override s (Sdk.present (Some false))) <$> Sdk.switches o)
  ∧ (options = None → r = Sdk.defaultOptions)
  ∧ Sdk.all_keys r
  ∧ Sdk.initializeDeveloperOptions (Some r) = r.
Proof.
  intros r. unfold r, Sdk.initializeDeveloperOptions.
  split; [| split; [| split; [| split]]].
  - intros o k ks -> Hl. by rewrite Hl.
  - intros o -> Hl. by destruct Hl as [-> | ->].
  - by intros ->.
  - destruct options as [o |]; [| by repeat constructor].
    destruct (Sdk.read (Sdk.logs o)) as [[| k ks] |] eqn:Hl;
      try apply spread_default_all_keys.
    pose proof (spread_default_all_keys o) as (H1 & H2 & H3 & _).
    unfold Sdk.all_keys, Sdk.switches.
    cbn [Sdk.logs Sdk.logLevel Sdk.logFormat Sdk.enableRequestLogging
         Sdk.enableResponseLogging Sdk.enableErrorLogging Sdk.enableDebugLogging].
    split_and!; try done. by repeat apply Forall_cons_2; try apply Forall_nil_2.
  - destruct options as [o |]; [| done].
    destruct (Sdk.read (Sdk.logs o)) as [[| k ks] |] eqn:Hl.
    + assert (Sdk.read (Sdk.logs (Sdk.spread Sdk.defaultOptions o)) = Some [])
        as Hl'.
      { unfold Sdk.spread. cbn [Sdk.logs]. by destruct (Sdk.logs o). }
      by rewrite Hl', spread_default_id.
    + assert (Sdk.read (Sdk.logs (Sdk.spread Sdk.defaultOptions o))
              = Some (k :: ks)) as Hl'.
      { unfold Sdk.spread. cbn [Sdk.logs]. by destruct (Sdk.logs o). }
      cbv zeta. cbn [Sdk.logs]. rewrite Hl'.
      unfold Sdk.spread, Sdk.defaultOptions.
      cbn [Sdk.logs Sdk.logLevel Sdk.logFormat Sdk.enableRequestLogging
           Sdk.enableResponseLogging Sdk.enableErrorLogging
           Sdk.enableDebugLogging].
      by rewrite !override_id.
    + assert (Sdk.read (Sdk.logs (Sdk.spread Sdk.defaultOptions o)) = None
              ∨ Sdk.read (Sdk.logs (Sdk.spread Sdk.defaultOptions o)) = Some [])
        as Hl'.
      { unfold Sdk.spread. cbn [Sdk.logs]. destruct (Sdk.logs o); [by right |].
        by left. }
      destruct Hl' as [-> | ->]; by rewrite spread_default_id.
Qed.

Lemma developer_options_initialised_witness :
  Sdk.switches
    (Sdk.initializeDeveloperOptions
       (Some {| Sdk.logs := Sdk.present (Some [Sdk.log_request; Sdk.log_error]);
                Sdk.logLevel := Sdk.absent; Sdk.logFormat := Sdk.absent;
                Sdk.enableRequestLogging := Sdk.present (Some false);
                Sdk.enableResponseLogging := Sdk.present (Some true);
                Sdk.enableErrorLogging := Sdk.absent;
                Sdk.enableDebugLogging := Sdk.absent |}))
  = [ Sdk.present (Some true); Sdk.present (Some false);
      Sdk.present (Some true); Sdk.present (Some false) ]
  ∧ Sdk.switches
      (Sdk.initializeDeveloperOptions
         (Some {| Sdk.logs := Sdk.absent;
                  Sdk.logLevel := Sdk.present None; Sdk.logFormat := Sdk.absent;
                  Sdk.enableRequestLogging := Sdk.present None;
                  Sdk.enableResponseLogging := Sdk.present (Some true);
                  Sdk.enableErrorLogging := Sdk.absent;
                  Sdk.enableDebugLogging := Sdk.absent |}))
    = [ Sdk.present None; Sdk.present (Some true);
        Sdk.present (Some false); Sdk.present (Some false) ]
  ∧ Sdk.initializeDeveloperOptions None = Sdk.defaultOptions.
Proof.
  pose proof (developer_options_initialised
                (Some {| Sdk.logs :=
                           Sdk.present (Some [Sdk.log_request; Sdk.log_error]);
                         Sdk.logLevel := Sdk.absent; Sdk.logFormat := Sdk.absent;
                         Sdk.enableRequestLogging := Sdk.present (Some false);
                         Sdk.enableResponseLogging := Sdk.present (Some true);
                         Sdk.enableErrorLogging := Sdk.absent;
                         Sdk.enableDebugLogging := Sdk.absent |})) as H.
  cbv zeta in H. destruct H as (Hlogs & _).
  pose proof (developer_options_initialised
                (Some {| Sdk.logs := Sdk.absent;
                         Sdk.logLevel := Sdk.present None;
                         Sdk.logFormat := Sdk.absent;
                         Sdk.enableRequestLogging := Sdk.present None;
                         Sdk.enableResponseLogging := Sdk.present (Some true);
                         Sdk.enableErrorLogging := Sdk.absent;
                         Sdk.enableDebugLogging := Sdk.absent |})) as H.
  cbv zeta in H. destruct H as (_ & Hpassed & _).
  pose proof (developer_options_initialised None) as H.
  cbv zeta in H. destruct H as (_ & _ & Hnone & _).
  split_and!.
  - exact (Hlogs _ Sdk.log_request [Sdk.log_error] eq_refl eq_refl).
  - exact (Hpassed _ eq_refl (or_introl eq_refl)).
  - by apply Hnone.
Defined.



(** X28. The timeout of the client. [updateConfig] never changes it; in
    the configuration it puts the value of the timeout key of its
    argument when the key is there ([undefined] included) and leaves the
    timeout otherwise. The client takes the timeout of the
    configuration, or 30000 when that is [undefined], when
    [updateDeveloperOptions] rebuilds it. *)
Theorem client_timeout_updates (this : Sdk.WaMessageApi) (n : Sdk.PartialConfig)
  (options : Sdk.DeveloperOptions) :
  Sdk.defaultTimeout (Sdk.httpClient (Sdk.updateConfig n this))
  = Sdk.defaultTimeout (Sdk.httpClient this)
  ∧ Sdk.cfg_timeout (Sdk.getConfig (Sdk.updateConfig n this))
    = match Sdk.new_timeout n with
      | Sdk.absent => Sdk.cfg_timeout (Sdk.getConfig this)
      | Sdk.present v => v
      end
  ∧ Sdk.defaultTimeout (Sdk.httpClient (Sdk.updateDeveloperOptions options this))
    = default 30000%Z (Sdk.cfg_timeout (Sdk.getConfig this))
  ∧ Sdk.defaultTimeout
      (Sdk.httpClient (Sdk.updateDeveloperOptions options (Sdk.updateConfig n this)))
    = default 30000%Z
        match Sdk.new_timeout n with
        | Sdk.absent => Sdk.cfg_timeout (Sdk.getConfig this)
        | Sdk.present v => v
        end.
Proof.
  unfold Sdk.updateConfig, Sdk.updateDeveloperOptions, Sdk.getConfig.
  cbn [Sdk.config Sdk.httpClient Sdk.cfg_timeout Sdk.newHttpClient
       Sdk.defaultTimeout].
  split_and!.
  - destruct (Sdk.read (Sdk.new_apiKey n)) as [k |]; [| done].
    by destruct (truthy (Some k)).
  - by destruct (Sdk.new_timeout n).
  - done.
  - by destruct (Sdk.new_timeout n).
Qed.
